(** * Request-scoped values and a create-user handler

    A shallow embedding of the two Go teaching examples of this repository:

    - [context_package_example.go]: a typed accessor layer ([SetMainContext],
      [GetMainContext], [SetRequestID], [GetRequestID]) over one slot of a
      [context.Context];
    - the HTTP handler example: [validateCreateUserRequest],
      [handleCreateUser] and [CreateUserHandler].

    The file first gives the definitions (Go's dynamic values, the context
    chain, the accessors, an allocation-level model of the chain, Go errors
    and the handler), then the lemmas and theorems about them. *)

From Stdlib Require Import String List ZArith Bool Arith Lia.
Import ListNotations.

Local Open Scope string_scope.

(* ================================================================== *)
(** * Part I: definitions                                              *)
(* ================================================================== *)

(** ** The data of [context_package_example.go] *)

(** [type mainContext struct { RequestID string; IPAddress string }] *)
Record mainContext : Type := MkMainContext {
  RequestID : string;
  IPAddress : string
}.

(** The composite literal [mainContext{}]: every field at its zero value. *)
Definition zeroMainContext : mainContext :=
  {| RequestID := ""; IPAddress := "" |}.

(** The statement [data.RequestID = requestID] on a local copy [data]. *)
Definition withRequestID (data : mainContext) (requestID : string) : mainContext :=
  {| RequestID := requestID; IPAddress := IPAddress data |}.

(** ** Dynamic values ([interface{}])

    [context.WithValue] takes its key and its value as [interface{}]: a
    value together with its dynamic type.  The constructors list the dynamic
    types that matter to this package, and [foreign] stands for a value of
    any type declared elsewhere (named by its type and a printed
    representation). *)
Inductive any : Type :=
| nilAny                                 (* the nil interface value *)
| mainContextKey                         (* mainContextKey{} *)
| mainContextVal (data : mainContext)    (* a mainContext struct *)
| stringVal (s : string)
| intVal (z : Z)
| foreign (typ repr : string).

Definition mainContext_eqb (a b : mainContext) : bool :=
  String.eqb (RequestID a) (RequestID b) && String.eqb (IPAddress a) (IPAddress b).

(** Go's [==] on two interface values: same dynamic type and equal values. *)
Definition any_eqb (a b : any) : bool :=
  match a, b with
  | nilAny, nilAny => true
  | mainContextKey, mainContextKey => true
  | mainContextVal x, mainContextVal y => mainContext_eqb x y
  | stringVal x, stringVal y => String.eqb x y
  | intVal x, intVal y => Z.eqb x y
  | foreign t r, foreign t' r' => String.eqb t t' && String.eqb r r'
  | _, _ => false
  end.

(** The comma-ok type assertion [v.(mainContext)]. *)
Definition assertMainContext (v : any) : mainContext * bool :=
  match v with
  | mainContextVal data => (data, true)
  | _ => (zeroMainContext, false)
  end.

(** ** The propagation chain ([context.Context])

    A non-nil [context.Context] as the standard library builds it: the empty
    root ([context.Background()]), a [valueCtx] that adds one binding to its
    parent, and the contexts that add no binding of their own and forward
    [Value] to their parent ([WithCancel], [WithDeadline], [WithTimeout]).
    The nil interface is not a chain: [context.WithValue] refuses a nil
    parent. *)
Inductive Context : Type :=
| emptyCtx
| valueCtx (parent : Context) (key val : any)
| cancelCtx (parent : Context).

(** [context.WithValue(parent, key, val)]: a new node on top of [parent]. *)
Definition WithValue (parent : Context) (key val : any) : Context :=
  valueCtx parent key val.

(** [ctx.Value(key)]: the innermost binding of [key], or nil. *)
Fixpoint Value (ctx : Context) (key : any) : any :=
  match ctx with
  | emptyCtx => nilAny
  | valueCtx parent k v => if any_eqb k key then v else Value parent key
  | cancelCtx parent => Value parent key
  end.

(** Number of [valueCtx] nodes of a chain: how many bind operations built it. *)
Fixpoint binds (ctx : Context) : nat :=
  match ctx with
  | emptyCtx => 0
  | valueCtx parent _ _ => S (binds parent)
  | cancelCtx parent => binds parent
  end.

(** ** The accessors of [context_package_example.go] *)

Definition SetMainContext (ctx : Context) (data : mainContext) : Context :=
  WithValue ctx mainContextKey (mainContextVal data).

Definition GetMainContext (ctx : Context) : mainContext :=
  let (mainCtx, ok) := assertMainContext (Value ctx mainContextKey) in
  if ok then mainCtx else zeroMainContext.

Definition SetRequestID (ctx : Context) (requestID : string) : Context :=
  let data := GetMainContext ctx in
  let data := withRequestID data requestID in
  WithValue ctx mainContextKey (mainContextVal data).

Definition GetRequestID (ctx : Context) : string :=
  let data := GetMainContext ctx in
  RequestID data.

(** Whether a scope is bound on a chain: some [valueCtx] of it binds the
    package's key to a value of type [mainContext]. *)
Fixpoint scopeBound (ctx : Context) : bool :=
  match ctx with
  | emptyCtx => false
  | valueCtx parent key val =>
      (any_eqb key mainContextKey && snd (assertMainContext val))
      || scopeBound parent
  | cancelCtx parent => scopeBound parent
  end.

(** ** The chain as allocated objects

    [context.WithValue] returns a pointer to a freshly allocated [valueCtx]
    whose [Context] field points to the parent.  To speak about what a set
    operation does to the chain it was given, the chain is modelled a second
    time at the level of allocations: a heap of nodes, handles that are
    addresses, and operations that thread the heap. *)
Module Store.

Definition addr : Type := nat.

Inductive node : Type :=
| emptyNode
| valueNode (parent : addr) (key val : any)
| cancelNode (parent : addr).

(** The allocated nodes, newest first.  The node at address [a] is the one
    with exactly [a] older nodes below it, so an address, once handed out,
    names the same position for ever. *)
Definition heap : Type := list node.

Definition alloc (h : heap) (n : node) : heap * addr :=
  (n :: h, length h).

(** A handle the program can hold: the address of an allocated node. *)
Definition valid (h : heap) (ctx : addr) : Prop := ctx < length h.

(** [ctx.Value(key)], following parent pointers.  A node is allocated after
    its parent, so the walk only ever moves to older nodes. *)
Fixpoint Value (h : heap) (ctx : addr) (key : any) : any :=
  match h with
  | [] => nilAny
  | n :: older =>
      if Nat.eqb ctx (length older) then
        match n with
        | emptyNode => nilAny
        | valueNode parent k v =>
            if any_eqb k key then v else Value older parent key
        | cancelNode parent => Value older parent key
        end
      else Value older ctx key
  end.

(** The chain a handle denotes. *)
Fixpoint reify (h : heap) (ctx : addr) : Context :=
  match h with
  | [] => emptyCtx
  | n :: older =>
      if Nat.eqb ctx (length older) then
        match n with
        | emptyNode => emptyCtx
        | valueNode parent k v => valueCtx (reify older parent) k v
        | cancelNode parent => cancelCtx (reify older parent)
        end
      else reify older ctx
  end.

Definition WithValue (h : heap) (parent : addr) (key val : any) : heap * addr :=
  alloc h (valueNode parent key val).

Definition SetMainContext (h : heap) (ctx : addr) (data : mainContext)
  : heap * addr :=
  WithValue h ctx mainContextKey (mainContextVal data).

Definition GetMainContext (h : heap) (ctx : addr) : mainContext :=
  let (mainCtx, ok) := assertMainContext (Value h ctx mainContextKey) in
  if ok then mainCtx else zeroMainContext.

Definition SetRequestID (h : heap) (ctx : addr) (requestID : string)
  : heap * addr :=
  let data := GetMainContext h ctx in
  let data := withRequestID data requestID in
  WithValue h ctx mainContextKey (mainContextVal data).

Definition GetRequestID (h : heap) (ctx : addr) : string :=
  let data := GetMainContext h ctx in
  RequestID data.

End Store.

(** ** Go errors *)

(** The error values of the handler example:
    - [fundamental]: the result of [errors.New] of [github.com/pkg/errors],
      a pointer, compared by address;
    - [wrapError]: the result of [fmt.Errorf] with a [%w] verb, which keeps
      the formatted message and the wrapped error;
    - [errorString]: the result of [fmt.Errorf] without [%w], and the errors
      of the collaborators, of which only the message is ever used. *)
Inductive error : Type :=
| fundamental (ptr : nat) (msg : string)
| wrapError (msg : string) (err : error)
| errorString (msg : string).

(** [err.Error()] *)
Definition Error (err : error) : string :=
  match err with
  | fundamental _ msg => msg
  | wrapError msg _ => msg
  | errorString msg => msg
  end.

(** [err.Unwrap()], nil for the errors without the method. *)
Definition Unwrap (err : error) : option error :=
  match err with
  | wrapError _ inner => Some inner
  | _ => None
  end.

(** [err == target] for a target made by [errors.New]: the same pointer.  The
    errors that [fmt.Errorf] allocates are identical to no such target. *)
Definition sameError (err target : error) : bool :=
  match err, target with
  | fundamental p _, fundamental q _ => Nat.eqb p q
  | _, _ => false
  end.

(** [errors.Is(err, target)] for non-nil arguments: walk the [Unwrap] chain. *)
Fixpoint Is (err target : error) : bool :=
  sameError err target ||
  match err with
  | wrapError _ inner => Is inner target
  | _ => false
  end.

(** The package-level sentinels, allocated once each at start-up. *)
Definition errBadRequest : error := fundamental 0 "input error".
Definition errInternal : error := fundamental 1 "internal error".

(** [fmt.Errorf(prefix + "%s. %w", err, sentinel)] *)
Definition Errorf_s_w (prefix : string) (err sentinel : error) : error :=
  wrapError (prefix ++ Error err ++ ". " ++ Error sentinel) sentinel.

(** [fmt.Errorf("%s", s)] *)
Definition Errorf_s (s : string) : error := errorString s.

(** [strings.Join(elems, sep)] *)
Fixpoint Join (elems : list string) (sep : string) : string :=
  match elems with
  | [] => ""
  | x :: rest =>
      match rest with
      | [] => x
      | _ :: _ => x ++ sep ++ Join rest sep
      end
  end.

(** ** The data of the handler example *)

Record userSettingsData : Type := MkUserSettingsData {
  Enabled : bool;
  APIKey : string
}.

(** The fields of [Controller] that the handlers read.  The settings client
    and the database handle are collaborators, see [Section Handler]. *)
Record Controller : Type := MkController {
  settingsData : userSettingsData
}.

Record createUserRequest : Type := MkCreateUserRequest {
  FullName : string;
  Address : string;
  City : string;
  State : string;
  ZipCode : Z
}.

Record createUserResponse : Type := MkCreateUserResponse {
  ID : string
}.

Definition StatusCreated : Z := 201.
Definition StatusBadRequest : Z := 400.
Definition StatusInternalServerError : Z := 500.
Definition StatusNotImplemented : Z := 501.

(** The payloads [response.Error(err)] and [response.Success(v)]. *)
Inductive payload : Type :=
| responseError (err : option error)
| responseSuccess (userResp : createUserResponse).

(** ** [validateCreateUserRequest] *)

(** Go strings are byte sequences and [len] counts bytes, as [String.length]
    does on a [string] of 8-bit characters; [ZipCode] is a Go [int], compared
    with 0 only. *)

(** [errs = append(errs, msg)] under the guard [cond]. *)
Definition appendIf (cond : bool) (errs : list string) (msg : string) : list string :=
  if cond then errs ++ [msg] else errs.

Definition validateCreateUserRequest (cur : createUserRequest) : option error :=
  let errs : list string := [] in
  let errs := appendIf (String.eqb (FullName cur) "") errs
                "full name is required" in
  let errs := appendIf (String.eqb (Address cur) "") errs
                "address is required" in
  let errs := appendIf (String.eqb (City cur) "") errs
                "city is required" in
  let errs := appendIf (String.eqb (State cur) ""
                        || negb (Nat.eqb (String.length (State cur)) 2)) errs
                "state is required and must be 2 characters" in
  let errs := appendIf (Z.eqb (ZipCode cur) 0) errs
                "zip code is required" in
  if Nat.ltb 0 (List.length errs) then Some (Errorf_s (Join errs "; "))
  else None.

(** What the validation is meant to accept, field by field. *)
Definition wellFormed (cur : createUserRequest) : Prop :=
  FullName cur <> "" /\ Address cur <> "" /\ City cur <> "" /\
  String.length (State cur) = 2 /\ ZipCode cur <> 0%Z.

(** The table of the five checks in field-check order: whether the field is
    rejected, and the message for it. *)
Definition fieldChecks (cur : createUserRequest) : list (bool * string) :=
  [ (String.eqb (FullName cur) "", "full name is required");
    (String.eqb (Address cur) "", "address is required");
    (String.eqb (City cur) "", "city is required");
    (negb (Nat.eqb (String.length (State cur)) 2),
       "state is required and must be 2 characters");
    (Z.eqb (ZipCode cur) 0, "zip code is required") ].

(** The messages that apply to a request, in field-check order. *)
Definition applicableMessages (cur : createUserRequest) : list string :=
  map snd (filter fst (fieldChecks cur)).

(** ** [handleCreateUser] and [CreateUserHandler] *)

Section Handler.

(** The collaborators, of which the repository shows only the calls:
    the JSON decoder reading the request body into [cur], and
    [c.DB.InsertUser], which acts on the database. *)
Variable Body : Type.
Variable DB : Type.
Variable Decode : Body -> createUserRequest * option error.
Variable InsertUser :
  DB -> Context -> createUserRequest -> (string * option error) * DB.

(** The parts of [*http.Request] that the handlers use. *)
Record Request : Type := MkRequest {
  reqContext : Context;
  reqBody : Body
}.

(** What a handler does to the outside, in order. *)
Inductive event : Type :=
| Decoded (body : Body)
| Inserted (ctx : Context) (cur : createUserRequest)
| Logged (msg : string) (err : error)
| Responded (status : Z) (body : payload).

Record World : Type := MkWorld {
  db : DB;
  trace : list event
}.

(** Computations that act on the world. *)
Definition M (A : Type) : Type := World -> A * World.

Definition ret {A : Type} (a : A) : M A := fun w => (a, w).

Definition bind {A B : Type} (m : M A) (k : A -> M B) : M B :=
  fun w => let (a, w') := m w in k a w'.

Local Notation "' pat <- m ;; k" :=
  (bind m (fun x => match x with pat => k end))
  (at level 61, pat pattern, m at next level, right associativity).
Local Notation "m ;; k" := (bind m (fun _ => k))
  (at level 61, right associativity).

Definition emit (e : event) : M unit :=
  fun w => (tt, {| db := db w; trace := trace w ++ [e] |}).

(** [json.NewDecoder(req.Body).Decode(&cur)] on the fresh
    [cur := createUserRequest{}]: the decoded [cur] and the error. *)
Definition decodeBody (body : Body) : M (createUserRequest * option error) :=
  emit (Decoded body) ;; ret (Decode body).

(** [c.DB.InsertUser(ctx, cur)] *)
Definition insertUser (ctx : Context) (cur : createUserRequest)
  : M (string * option error) :=
  fun w =>
    let (r, db') := InsertUser (db w) ctx cur in
    (r, {| db := db'; trace := trace w ++ [Inserted ctx cur] |}).

(** [n.Respond(rw, status, body)] *)
Definition Respond (status : Z) (body : payload) : M unit :=
  emit (Responded status body).

(** [logrus.WithFields(lf).WithError(err).Error(msg)] *)
Definition logError (err : error) (msg : string) : M unit :=
  emit (Logged msg err).

Definition handleCreateUser (c : Controller) (ctx : Context) (req : Request)
  : M (createUserResponse * option error) :=
  let resp := {| ID := "" |} in
  '(cur, err) <- decodeBody (reqBody req) ;;
  match err with
  | Some err =>
      ret (resp, Some (Errorf_s_w "failed to decode. " err errBadRequest))
  | None =>
      match validateCreateUserRequest cur with
      | Some err =>
          ret (resp, Some (Errorf_s_w
                 "failed to validate create user request. " err errBadRequest))
      | None =>
          '(userID, err) <- insertUser ctx cur ;;
          match err with
          | Some err =>
              ret (resp, Some (Errorf_s_w
                     "failed to insert user. " err errInternal))
          | None =>
              let resp := {| ID := userID |} in
              ret (resp, None)
          end
      end
  end.

Definition CreateUserHandler (c : Controller) (req : Request) : M unit :=
  let ctx := reqContext req in
  if negb (Enabled (settingsData c)) then
    Respond StatusNotImplemented (responseError None)
  else
    '(userResp, err) <- handleCreateUser c ctx req ;;
    match err with
    | Some err =>
        logError err "failed to create user" ;;
        if Is err errBadRequest then
          Respond StatusBadRequest (responseError (Some err))
        else if Is err errInternal then
          Respond StatusInternalServerError (responseError None)
        else ret tt
    | None =>
        Respond StatusCreated (responseSuccess userResp)
    end.

(** The responses written so far. *)
Definition responses (w : World) : list (Z * payload) :=
  flat_map (fun e => match e with
                     | Responded status body => [(status, body)]
                     | _ => []
                     end) (trace w).

(** The calls to [InsertUser] made so far. *)
Definition inserts (w : World) : list createUserRequest :=
  flat_map (fun e => match e with
                     | Inserted _ cur => [cur]
                     | _ => []
                     end) (trace w).

(** The world after the body has been decoded. *)
Definition decoded (req : Request) (w : World) : World :=
  {| db := db w; trace := trace w ++ [Decoded (reqBody req)] |}.

(** The world after the body has been decoded and the insert has run. *)
Definition inserted (req : Request) (ctx : Context)
           (cur : createUserRequest) (db' : DB) (w : World) : World :=
  {| db := db';
     trace := (trace w ++ [Decoded (reqBody req)]) ++ [Inserted ctx cur] |}.

(** The four ways through [handleCreateUser]. *)
Inductive outcome (c : Controller) (ctx : Context) (req : Request)
          (w : World) : createUserResponse * option error * World -> Prop :=
| DecodeFailed cur e :
    Decode (reqBody req) = (cur, Some e) ->
    outcome c ctx req w
      ({| ID := "" |},
       Some (Errorf_s_w "failed to decode. " e errBadRequest),
       decoded req w)
| ValidationFailed cur e :
    Decode (reqBody req) = (cur, None) ->
    validateCreateUserRequest cur = Some e ->
    outcome c ctx req w
      ({| ID := "" |},
       Some (Errorf_s_w "failed to validate create user request. " e
                        errBadRequest),
       decoded req w)
| InsertFailed cur userID e db' :
    Decode (reqBody req) = (cur, None) ->
    validateCreateUserRequest cur = None ->
    InsertUser (db w) ctx cur = ((userID, Some e), db') ->
    outcome c ctx req w
      ({| ID := "" |},
       Some (Errorf_s_w "failed to insert user. " e errInternal),
       inserted req ctx cur db' w)
| Created cur userID db' :
    Decode (reqBody req) = (cur, None) ->
    validateCreateUserRequest cur = None ->
    InsertUser (db w) ctx cur = ((userID, None), db') ->
    outcome c ctx req w
      ({| ID := userID |}, None, inserted req ctx cur db' w).

End Handler.

Arguments MkRequest {Body}.
Arguments reqContext {Body}.
Arguments reqBody {Body}.
Arguments Decoded {Body}.
Arguments Inserted {Body}.
Arguments Logged {Body}.
Arguments Responded {Body}.
Arguments MkWorld {Body DB}.
Arguments db {Body DB}.
Arguments trace {Body DB}.
Arguments responses {Body DB}.
Arguments inserts {Body DB}.
Arguments decoded {Body DB}.
Arguments inserted {Body DB}.

(** ** A concrete pair of collaborators

    An instance of the collaborators to run the handlers on: a body that is
    either malformed or holds a request, and a database that is a list of
    rows with room for two. *)
Module Demo.

Definition Body : Type := option createUserRequest.
Definition DB : Type := list createUserRequest.

Definition Decode (body : Body) : createUserRequest * option error :=
  match body with
  | Some cur => (cur, None)
  | None =>
      ({| FullName := ""; Address := ""; City := ""; State := ""; ZipCode := 0 |},
       Some (errorString "unexpected end of JSON input"))
  end.

Definition InsertUser (rows : DB) (ctx : Context) (cur : createUserRequest)
  : (string * option error) * DB :=
  if Nat.ltb (length rows) 2
  then (("user-" ++ FullName cur, None), (rows ++ [cur])%list)
  else (("", Some (errorString "database is full")), rows).

Definition ann : createUserRequest :=
  {| FullName := "Ann Lee"; Address := "1 Main St"; City := "Akron";
     State := "OH"; ZipCode := 44301 |}.

Definition anonymous : createUserRequest :=
  {| FullName := ""; Address := "1 Main St"; City := "Akron";
     State := "Ohio"; ZipCode := 44301 |}.

Definition request (body : Body) : Request Body :=
  {| reqContext := SetMainContext emptyCtx
                     {| RequestID := "abc"; IPAddress := "1.2.3.4" |};
     reqBody := body |}.

Definition world (rows : DB) : World Body DB :=
  {| db := rows; trace := [] |}.

Definition enabled : Controller :=
  {| settingsData := {| Enabled := true; APIKey := "k" |} |}.

End Demo.

(** ** What [CreateUserHandler] adds once [handleCreateUser] has returned

    The log entry and the response for an error that wraps one of the two
    sentinels, or the response for a success. *)
Definition answer {Body : Type} (resp : createUserResponse) (err : option error)
  : list (event Body) :=
  match err with
  | Some e =>
      [Logged "failed to create user" e;
       if Is e errBadRequest
       then Responded StatusBadRequest (responseError (Some e))
       else Responded StatusInternalServerError (responseError None)]
  | None => [Responded StatusCreated (responseSuccess resp)]
  end.

(** ** Deriving further contexts

    What other code does to a chain on its way to a handler: it binds a
    value under a key ([context.WithValue]) or derives a cancellable context
    ([context.WithCancel], [WithTimeout], [WithDeadline]). *)
Inductive derivation : Type :=
| bindValue (key val : any)
| deriveCancel.

Fixpoint derive (ctx : Context) (steps : list derivation) : Context :=
  match steps with
  | [] => ctx
  | bindValue key val :: rest => derive (WithValue ctx key val) rest
  | deriveCancel :: rest => derive (cancelCtx ctx) rest
  end.

(** Whether a derivation stays off the package's key, which no other
    package can name. *)
Definition foreignStep (d : derivation) : bool :=
  match d with
  | bindValue key _ => negb (any_eqb key mainContextKey)
  | deriveCancel => true
  end.

(** ** The scopes bound on a chain *)

(** The values of type [mainContext] bound to the package's key along a
    chain, innermost first. *)
Fixpoint boundScopes (ctx : Context) : list mainContext :=
  match ctx with
  | emptyCtx => []
  | valueCtx parent key val =>
      match val with
      | mainContextVal data =>
          if any_eqb key mainContextKey then data :: boundScopes parent
          else boundScopes parent
      | _ => boundScopes parent
      end
  | cancelCtx parent => boundScopes parent
  end.

(** ** The settings of the service: [InitializeUserSettings],
       [UpdateUserSettingsHandler] and [main] *)

Definition StatusOK : Z := 200.

(** The payloads of the settings endpoint: [response.Error(err)] and
    [response.Success(c.SettingsData)]. *)
Inductive settingsPayload : Type :=
| settingsError (err : option error)
| settingsSuccess (data : userSettingsData).

(** What the settings code does to the outside, in order. *)
Inductive settingsEvent : Type :=
| Fetched
| SettingsLogged (msg : string) (err : error)
| SettingsResponded (status : Z) (body : settingsPayload).

(** A route registered on the router: method, path and handler. *)
Record route : Type := MkRoute {
  routeMethod : string;
  routePath : string;
  routeHandler : string
}.

Section Settings.

(** The settings client is a collaborator: [c.settingsClient.Get(&usd)]
    fills [usd] and returns an error, and may change the client's state. *)
Variable Client : Type.
Variable Get : Client -> (userSettingsData * option error) * Client.

(** The controller behind the pointer receiver [c *Controller], with its
    settings client and the journal of what was done. *)
Record Service : Type := MkService {
  controller : Controller;
  client : Client;
  journal : list settingsEvent
}.

Definition InitializeUserSettings (s : Service) : option error * Service :=
  let '((usd, err), client') := Get (client s) in
  let s := {| controller := controller s; client := client';
              journal := journal s ++ [Fetched] |} in
  match err with
  | Some err =>
      (Some (Errorf_s_w "failed to get user settings. " err errInternal), s)
  | None =>
      (None, {| controller := {| settingsData := usd |};
                client := client s; journal := journal s |})
  end.

Definition settingsRespond (status : Z) (body : settingsPayload) (s : Service)
  : Service :=
  {| controller := controller s; client := client s;
     journal := journal s ++ [SettingsResponded status body] |}.

Definition settingsLogError (err : error) (msg : string) (s : Service)
  : Service :=
  {| controller := controller s; client := client s;
     journal := journal s ++ [SettingsLogged msg err] |}.

Definition UpdateUserSettingsHandler (s : Service) : Service :=
  let (err, s) := InitializeUserSettings s in
  match err with
  | Some err =>
      let s := settingsLogError err "failed to update user settings" s in
      settingsRespond StatusInternalServerError (settingsError None) s
  | None =>
      settingsRespond StatusOK
        (settingsSuccess (settingsData (controller s))) s
  end.

(** How [main] ends: with [panic(err)], or with the routes registered. *)
Inductive started : Type :=
| Panicked (err : error) (s : Service)
| Routed (routes : list route) (s : Service).

(** [main], given the client that [settings.NewClient()] returns. *)
Definition main (newClient : Client) : started :=
  let c := {| controller :=
                {| settingsData := {| Enabled := false; APIKey := "" |} |};
              client := newClient; journal := [] |} in
  let (err, c) := InitializeUserSettings c in
  match err with
  | Some err => Panicked err c
  | None =>
      Routed
        [ {| routeMethod := "POST"; routePath := "/v1/user";
             routeHandler := "CreateUserHandler" |};
          {| routeMethod := "POST"; routePath := "/v1/update-settings";
             routeHandler := "UpdateUserSettingsHandler" |};
          {| routeMethod := "GET"; routePath := "/v1/user/:user_id";
             routeHandler := "GetUserHandler" |};
          {| routeMethod := "DELETE"; routePath := "/v1/user/:user_id";
             routeHandler := "DeleteUserHandler" |};
          {| routeMethod := "GET"; routePath := "/v1/users";
             routeHandler := "GetAllUsersHandler" |} ]
        c
  end.

(** The responses the settings endpoint has written. *)
Definition settingsResponses (s : Service) : list (Z * settingsPayload) :=
  flat_map (fun e => match e with
                     | SettingsResponded status body => [(status, body)]
                     | _ => []
                     end) (journal s).

(** The number of calls to the settings client. *)
Definition fetches (s : Service) : nat :=
  length (filter (fun e => match e with Fetched => true | _ => false end)
                 (journal s)).

End Settings.

Arguments MkService {Client}.
Arguments controller {Client}.
Arguments client {Client}.
Arguments journal {Client}.
Arguments settingsRespond {Client}.
Arguments settingsLogError {Client}.
Arguments settingsResponses {Client}.
Arguments fetches {Client}.
Arguments Panicked {Client}.
Arguments Routed {Client}.

(** A settings client to run the settings code on: a queue of the answers
    it will give, and a failure once the queue is empty. *)
Module DemoSettings.

Definition Client : Type := list userSettingsData.

Definition Get (answers : Client) : (userSettingsData * option error) * Client :=
  match answers with
  | usd :: rest => ((usd, None), rest)
  | [] => (({| Enabled := false; APIKey := "" |},
            Some (errorString "settings service unreachable")), [])
  end.

Definition on : userSettingsData := {| Enabled := true; APIKey := "k1" |}.
Definition off : userSettingsData := {| Enabled := false; APIKey := "k2" |}.

Definition service (current : userSettingsData) (answers : Client)
  : Service Client :=
  {| controller := {| settingsData := current |};
     client := answers; journal := [] |}.

End DemoSettings.

(* ================================================================== *)
(** * Part II: properties                                              *)
(* ================================================================== *)

(** ** Dynamic values *)

Lemma mainContext_eqb_eq (a b : mainContext) :
  mainContext_eqb a b = true <-> a = b.
Proof.
  destruct a as [r i], b as [r' i']; unfold mainContext_eqb; simpl.
  rewrite andb_true_iff, !String.eqb_eq.
  split.
  - intros [-> ->]; reflexivity.
  - intros E; injection E; auto.
Qed.

Lemma any_eqb_eq (a b : any) : any_eqb a b = true <-> a = b.
Proof.
  destruct a, b; simpl; try (split; [discriminate | congruence]);
    try (split; reflexivity).
  - rewrite mainContext_eqb_eq; split; congruence.
  - rewrite String.eqb_eq; split; congruence.
  - rewrite Z.eqb_eq; split; congruence.
  - rewrite andb_true_iff, !String.eqb_eq; split.
    + intros [-> ->]; reflexivity.
    + intros E; injection E; auto.
Qed.

Lemma any_eqb_mainContextKey (key : any) :
  any_eqb key mainContextKey = true -> key = mainContextKey.
Proof. apply any_eqb_eq. Qed.

(** ** The chain *)

Lemma Value_WithValue_same (ctx : Context) (key val : any) :
  Value (WithValue ctx key val) key = val.
Proof.
  simpl. replace (any_eqb key key) with true; [reflexivity |].
  symmetry; apply any_eqb_eq; reflexivity.
Qed.

Lemma Value_WithValue_other (ctx : Context) (key key' val : any) :
  key <> key' -> Value (WithValue ctx key val) key' = Value ctx key'.
Proof.
  intros N; simpl.
  destruct (any_eqb key key') eqn:E; [| reflexivity].
  apply any_eqb_eq in E; contradiction.
Qed.

Lemma binds_WithValue (ctx : Context) (key val : any) :
  binds (WithValue ctx key val) = S (binds ctx).
Proof. reflexivity. Qed.

(** The read is decided by what [Value] finds under the package's key. *)
Lemma GetMainContext_found (ctx : Context) (data : mainContext) :
  Value ctx mainContextKey = mainContextVal data -> GetMainContext ctx = data.
Proof. unfold GetMainContext; intros ->; reflexivity. Qed.

Lemma GetMainContext_not_found (ctx : Context) :
  snd (assertMainContext (Value ctx mainContextKey)) = false ->
  GetMainContext ctx = zeroMainContext.
Proof.
  unfold GetMainContext.
  destruct (Value ctx mainContextKey); simpl; try reflexivity; discriminate.
Qed.

(** Without a bound scope, [Value] finds nothing of type [mainContext]. *)
Lemma scopeBound_false_Value (ctx : Context) :
  scopeBound ctx = false ->
  snd (assertMainContext (Value ctx mainContextKey)) = false.
Proof.
  induction ctx as [| parent IH key val | parent IH]; simpl; intros H.
  - reflexivity.
  - apply orb_false_iff in H as [Hhere Hparent].
    destruct (any_eqb key mainContextKey) eqn:E.
    + simpl in Hhere; exact Hhere.
    + apply IH; exact Hparent.
  - apply IH; exact H.
Qed.

(** Conversely, a read that finds a scope found it bound on the chain. *)
Lemma Value_scopeBound (ctx : Context) (data : mainContext) :
  Value ctx mainContextKey = mainContextVal data -> scopeBound ctx = true.
Proof.
  induction ctx as [| parent IH key val | parent IH]; simpl; intros H.
  - discriminate.
  - destruct (any_eqb key mainContextKey) eqn:E; simpl.
    + subst val; reflexivity.
    + apply IH; exact H.
  - apply IH; exact H.
Qed.

(** ** The accessors *)

(** Reading through the node that a set operation has just put on top. *)
Lemma GetMainContext_bound (ctx : Context) (data : mainContext) :
  GetMainContext (WithValue ctx mainContextKey (mainContextVal data)) = data.
Proof. apply GetMainContext_found, Value_WithValue_same. Qed.

(** Both setters put exactly one scope-holding node on top of their argument. *)
Lemma SetRequestID_unfold (ctx : Context) (requestID : string) :
  SetRequestID ctx requestID
  = SetMainContext ctx (withRequestID (GetMainContext ctx) requestID).
Proof. reflexivity. Qed.

(** C1. Round trip: reading the scope right after binding [s] on any chain
    returns exactly [s], field by field. *)
Theorem GetMainContext_SetMainContext (ctx : Context) (s : mainContext) :
  GetMainContext (SetMainContext ctx s) = s
  /\ RequestID (GetMainContext (SetMainContext ctx s)) = RequestID s
  /\ IPAddress (GetMainContext (SetMainContext ctx s)) = IPAddress s.
Proof.
  assert (E : GetMainContext (SetMainContext ctx s) = s)
    by apply GetMainContext_bound.
  rewrite E; auto.
Qed.

(** C2. Fail-open default: on a chain on which no scope of the expected
    shape is bound, the read returns the zero-valued scope, with both fields
    empty; the read is a total function and has no error result. *)
Theorem GetMainContext_default (ctx : Context) :
  scopeBound ctx = false ->
  GetMainContext ctx = {| RequestID := ""; IPAddress := "" |}.
Proof.
  intros H. apply GetMainContext_not_found, scopeBound_false_Value, H.
Qed.

Lemma GetMainContext_default_witness :
  let ctx := cancelCtx (valueCtx (valueCtx emptyCtx (stringVal "user") (stringVal "u1"))
                          mainContextKey (stringVal "not a scope")) in
  scopeBound ctx = false
  /\ GetMainContext ctx = {| RequestID := ""; IPAddress := "" |}.
Proof.
  split; [reflexivity | apply GetMainContext_default; reflexivity].
Defined.

(** C3. No-clobber: setting the request ID on a chain that holds [s] yields
    [s] with only [RequestID] replaced; [IPAddress] is the one of [s]. *)
Theorem SetRequestID_no_clobber (ctx : Context) (s : mainContext) (x : string) :
  GetMainContext (SetRequestID (SetMainContext ctx s) x)
    = {| RequestID := x; IPAddress := IPAddress s |}
  /\ IPAddress (GetMainContext (SetRequestID (SetMainContext ctx s) x))
       = IPAddress s
  /\ RequestID (GetMainContext (SetRequestID (SetMainContext ctx s) x)) = x.
Proof.
  assert (E : GetMainContext (SetRequestID (SetMainContext ctx s) x)
              = {| RequestID := x; IPAddress := IPAddress s |}).
  { rewrite SetRequestID_unfold. unfold SetMainContext at 1.
    rewrite GetMainContext_bound. unfold SetMainContext.
    rewrite GetMainContext_bound. reflexivity. }
  rewrite E; auto.
Qed.

(** C4. The per-field setter is the bulk setter applied to the current scope
    with [RequestID] replaced: the two chains read the same (they are the
    same chain), and the update adds exactly one binding to its argument,
    which is one allocated node in the allocation-level model. *)
Theorem SetRequestID_composition (ctx : Context) (id : string) :
  let s' := {| RequestID := id; IPAddress := IPAddress (GetMainContext ctx) |} in
  GetMainContext (SetRequestID ctx id) = GetMainContext (SetMainContext ctx s')
  /\ GetMainContext (SetRequestID ctx id) = s'
  /\ SetRequestID ctx id = SetMainContext ctx s'
  /\ SetRequestID ctx id = WithValue ctx mainContextKey (mainContextVal s')
  /\ binds (SetRequestID ctx id) = S (binds ctx)
  /\ (forall (h : Store.heap) (a : Store.addr),
        length (fst (Store.SetRequestID h a id)) = S (length h)).
Proof.
  intros s'.
  assert (E : SetRequestID ctx id = SetMainContext ctx s') by reflexivity.
  split; [rewrite E; reflexivity |].
  split; [rewrite E; apply GetMainContext_bound |].
  split; [exact E |].
  split; [exact E |].
  split; [apply binds_WithValue |].
  intros h a; reflexivity.
Qed.

(** C5. The getter is a projection of the scope read; in the scenario of a
    chain on which [{"abc", "1.2.3.4"}] was set, it returns ["abc"]. *)
Theorem GetRequestID_projection (ctx : Context) :
  GetRequestID ctx = RequestID (GetMainContext ctx)
  /\ GetRequestID
       (SetMainContext ctx {| RequestID := "abc"; IPAddress := "1.2.3.4" |})
     = "abc".
Proof.
  split; [reflexivity |].
  unfold GetRequestID, SetMainContext.
  rewrite GetMainContext_bound; reflexivity.
Qed.

(** C9. Idempotence: binding the same scope twice reads the same as binding
    it once. *)
Theorem SetMainContext_idempotent (ctx : Context) (s : mainContext) :
  GetMainContext (SetMainContext (SetMainContext ctx s) s)
  = GetMainContext (SetMainContext ctx s).
Proof.
  unfold SetMainContext. rewrite !GetMainContext_bound. reflexivity.
Qed.

(** ** The chain as allocated objects *)

Lemma Store_valid_fresh (h : Store.heap) (ctx : Store.addr) :
  Store.valid h ctx -> Nat.eqb ctx (length h) = false.
Proof. unfold Store.valid; intros H; apply Nat.eqb_neq; lia. Qed.

(** Allocation leaves every handle that was valid before reading the same. *)
Lemma Store_Value_alloc (h : Store.heap) (n : Store.node) (ctx : Store.addr)
      (key : any) :
  Store.valid h ctx ->
  Store.Value (fst (Store.alloc h n)) ctx key = Store.Value h ctx key.
Proof.
  intros H; simpl. rewrite (Store_valid_fresh h ctx H). reflexivity.
Qed.

Lemma Store_reify_alloc (h : Store.heap) (n : Store.node) (ctx : Store.addr) :
  Store.valid h ctx ->
  Store.reify (fst (Store.alloc h n)) ctx = Store.reify h ctx.
Proof.
  intros H; simpl. rewrite (Store_valid_fresh h ctx H). reflexivity.
Qed.

(** The two models agree: a handle reads as the chain it denotes. *)
Lemma Store_Value_reify (h : Store.heap) :
  forall (ctx : Store.addr) (key : any),
    Store.Value h ctx key = Value (Store.reify h ctx) key.
Proof.
  induction h as [| n older IH]; intros ctx key; simpl.
  - reflexivity.
  - destruct (Nat.eqb ctx (length older)).
    + destruct n as [| parent k v | parent]; simpl.
      * reflexivity.
      * rewrite IH; reflexivity.
      * apply IH.
    + apply IH.
Qed.

Lemma Store_GetMainContext_reify (h : Store.heap) (ctx : Store.addr) :
  Store.GetMainContext h ctx = GetMainContext (Store.reify h ctx).
Proof.
  unfold Store.GetMainContext, GetMainContext.
  rewrite Store_Value_reify; reflexivity.
Qed.

(** The handle that [WithValue] returns denotes the parent's chain with one
    more binding. *)
Lemma Store_reify_WithValue (h : Store.heap) (parent : Store.addr) (key val : any) :
  Store.reify (fst (Store.WithValue h parent key val))
              (snd (Store.WithValue h parent key val))
  = WithValue (Store.reify h parent) key val.
Proof. simpl. rewrite Nat.eqb_refl. reflexivity. Qed.

Lemma Store_reify_SetMainContext (h : Store.heap) (ctx : Store.addr)
      (data : mainContext) :
  Store.reify (fst (Store.SetMainContext h ctx data))
              (snd (Store.SetMainContext h ctx data))
  = SetMainContext (Store.reify h ctx) data.
Proof. apply Store_reify_WithValue. Qed.

Lemma Store_reify_SetRequestID (h : Store.heap) (ctx : Store.addr)
      (requestID : string) :
  Store.reify (fst (Store.SetRequestID h ctx requestID))
              (snd (Store.SetRequestID h ctx requestID))
  = SetRequestID (Store.reify h ctx) requestID.
Proof.
  unfold Store.SetRequestID, SetRequestID.
  rewrite Store_reify_WithValue, Store_GetMainContext_reify. reflexivity.
Qed.

Lemma Store_GetMainContext_alloc (h : Store.heap) (n : Store.node)
      (ctx : Store.addr) :
  Store.valid h ctx ->
  Store.GetMainContext (fst (Store.alloc h n)) ctx = Store.GetMainContext h ctx.
Proof.
  intros H. unfold Store.GetMainContext.
  rewrite Store_Value_alloc by exact H. reflexivity.
Qed.

(** C8. Copy semantics: a set operation allocates a new node and hands back
    a new handle; the handle it was given still denotes the same chain and
    reads the same scope in the heap after the operation as before it. *)
Theorem set_leaves_original_unmodified
        (h : Store.heap) (ctx : Store.addr) (s : mainContext) (x : string) :
  Store.valid h ctx ->
  let (h1, ctx1) := Store.SetMainContext h ctx s in
  let (h2, ctx2) := Store.SetRequestID h ctx x in
  Store.GetMainContext h1 ctx = Store.GetMainContext h ctx
  /\ Store.GetMainContext h2 ctx = Store.GetMainContext h ctx
  /\ Store.reify h1 ctx = Store.reify h ctx
  /\ Store.reify h2 ctx = Store.reify h ctx
  /\ ctx1 <> ctx /\ ctx2 <> ctx
  /\ Store.GetMainContext h1 ctx1 = s
  /\ RequestID (Store.GetMainContext h2 ctx2) = x.
Proof.
  intros H.
  destruct (Store.SetMainContext h ctx s) as [h1 ctx1] eqn:E1.
  destruct (Store.SetRequestID h ctx x) as [h2 ctx2] eqn:E2.
  pose proof (Store_reify_SetMainContext h ctx s) as R1.
  pose proof (Store_reify_SetRequestID h ctx x) as R2.
  rewrite E1 in R1; rewrite E2 in R2; cbn [fst snd] in R1, R2.
  unfold Store.SetMainContext, Store.SetRequestID, Store.WithValue in E1, E2.
  injection E1 as <- <-. injection E2 as <- <-.
  split; [apply (Store_GetMainContext_alloc h _ ctx H) |].
  split; [apply (Store_GetMainContext_alloc h _ ctx H) |].
  split; [apply (Store_reify_alloc h _ ctx H) |].
  split; [apply (Store_reify_alloc h _ ctx H) |].
  unfold Store.valid in H.
  split; [lia |]. split; [lia |].
  split.
  - rewrite Store_GetMainContext_reify, R1.
    unfold SetMainContext; apply GetMainContext_bound.
  - rewrite (Store_GetMainContext_reify (_ :: h)), R2, SetRequestID_unfold.
    unfold SetMainContext. rewrite GetMainContext_bound. reflexivity.
Qed.

Lemma set_leaves_original_unmodified_witness :
  let h := [Store.valueNode 0 mainContextKey
              (mainContextVal {| RequestID := "abc"; IPAddress := "1.2.3.4" |});
            Store.emptyNode] in
  let s := {| RequestID := "r2"; IPAddress := "10.0.0.1" |} in
  Store.valid h 1
  /\ Store.GetMainContext (fst (Store.SetMainContext h 1 s)) 1
     = {| RequestID := "abc"; IPAddress := "1.2.3.4" |}
  /\ Store.GetMainContext (fst (Store.SetRequestID h 1 "new-id")) 1
     = {| RequestID := "abc"; IPAddress := "1.2.3.4" |}.
Proof.
  intros h s.
  assert (V : Store.valid h 1) by (unfold Store.valid; simpl; lia).
  pose proof (set_leaves_original_unmodified h 1 s "new-id" V) as T.
  simpl in T. destruct T as (T1 & T2 & _).
  split; [exact V |]. split; [exact T1 | exact T2].
Defined.

(** ** Validation *)

(** The guard on [State] amounts to its second disjunct: the empty string
    has length 0. *)
Lemma state_guard (s : string) :
  String.eqb s "" || negb (Nat.eqb (String.length s) 2)
  = negb (Nat.eqb (String.length s) 2).
Proof.
  destruct (String.eqb_spec s "") as [-> | _]; reflexivity.
Qed.

Lemma applicableMessages_nil_iff (cur : createUserRequest) :
  applicableMessages cur = [] <-> wellFormed cur.
Proof.
  unfold applicableMessages, fieldChecks, wellFormed.
  destruct (String.eqb_spec (FullName cur) "");
    destruct (String.eqb_spec (Address cur) "");
    destruct (String.eqb_spec (City cur) "");
    destruct (Nat.eqb_spec (String.length (State cur)) 2);
    destruct (Z.eqb_spec (ZipCode cur) 0);
    simpl; split; intros H; try discriminate; tauto.
Qed.

Lemma applicableMessages_length (cur : createUserRequest) :
  length (applicableMessages cur) <= 5.
Proof.
  unfold applicableMessages.
  rewrite length_map.
  etransitivity; [apply filter_length_le | simpl; lia].
Qed.

(** The slice that the function builds is the list of applicable messages. *)
Lemma validateCreateUserRequest_messages (cur : createUserRequest) :
  validateCreateUserRequest cur =
  match applicableMessages cur with
  | [] => None
  | _ :: _ => Some (errorString (Join (applicableMessages cur) "; "))
  end.
Proof.
  unfold validateCreateUserRequest, applicableMessages, fieldChecks.
  rewrite state_guard.
  destruct (String.eqb (FullName cur) "");
    destruct (String.eqb (Address cur) "");
    destruct (String.eqb (City cur) "");
    destruct (Nat.eqb (String.length (State cur)) 2);
    destruct (Z.eqb (ZipCode cur) 0);
    reflexivity.
Qed.

(** C6. The validation returns nil exactly for the requests whose full
    name, address and city are non-empty, whose state has length 2 and whose
    zip code is not 0; for every other request it returns an error whose
    message is the applicable messages, at most five, joined by ["; "] in
    field-check order. *)
Theorem validateCreateUserRequest_correct (cur : createUserRequest) :
  (validateCreateUserRequest cur = None <-> wellFormed cur)
  /\ (~ wellFormed cur ->
      exists err, validateCreateUserRequest cur = Some err
                  /\ Error err = Join (applicableMessages cur) "; "
                  /\ applicableMessages cur <> []
                  /\ Unwrap err = None)
  /\ length (applicableMessages cur) <= 5.
Proof.
  pose proof (validateCreateUserRequest_messages cur) as E.
  pose proof (applicableMessages_nil_iff cur) as W.
  split; [| split].
  - destruct (applicableMessages cur) as [| m ms]; rewrite E.
    + split; intros _; [apply W |]; reflexivity.
    + split; intros H; [discriminate |].
      apply W in H; discriminate.
  - intros N.
    destruct (applicableMessages cur) as [| m ms] eqn:A.
    + exfalso; apply N, W; reflexivity.
    + eexists; split; [exact E |].
      split; [reflexivity |]. split; [discriminate | reflexivity].
  - apply applicableMessages_length.
Qed.

Lemma validateCreateUserRequest_correct_witness :
  let bad := {| FullName := ""; Address := "1 Main St"; City := "";
                State := "Ohio"; ZipCode := 0 |} in
  let good := {| FullName := "Ann Lee"; Address := "1 Main St";
                 City := "Akron"; State := "OH"; ZipCode := 44301 |} in
  (~ wellFormed bad)
  /\ (exists err, validateCreateUserRequest bad = Some err
        /\ Error err = "full name is required; city is required; state is required and must be 2 characters; zip code is required")
  /\ wellFormed good
  /\ validateCreateUserRequest good = None.
Proof.
  intros bad good.
  assert (N : ~ wellFormed bad) by (intros (H & _); apply H; reflexivity).
  assert (G : wellFormed good)
    by (unfold wellFormed, good; simpl; repeat split; discriminate).
  destruct (validateCreateUserRequest_correct bad) as (_ & B & _).
  destruct (validateCreateUserRequest_correct good) as (I & _ & _).
  split; [exact N |].
  split.
  - destruct (B N) as (err & E1 & E2 & _).
    exists err; split; [exact E1 | exact E2].
  - split; [exact G | apply I, G].
Defined.

(** Every field rejected: all five messages, in field-check order. *)
Example validateCreateUserRequest_all_rejected :
  validateCreateUserRequest
    {| FullName := ""; Address := ""; City := ""; State := ""; ZipCode := 0 |}
  = Some (errorString
      "full name is required; address is required; city is required; state is required and must be 2 characters; zip code is required").
Proof. reflexivity. Qed.

(** ** Errors *)

Lemma Is_Errorf_badRequest (prefix : string) (err : error) :
  Is (Errorf_s_w prefix err errBadRequest) errBadRequest = true
  /\ Is (Errorf_s_w prefix err errBadRequest) errInternal = false.
Proof. split; reflexivity. Qed.

Lemma Is_Errorf_internal (prefix : string) (err : error) :
  Is (Errorf_s_w prefix err errInternal) errInternal = true
  /\ Is (Errorf_s_w prefix err errInternal) errBadRequest = false.
Proof. split; reflexivity. Qed.

(** ** The create-user flow *)

Section HandlerProperties.

Variable Body : Type.
Variable DB : Type.
Variable Decode : Body -> createUserRequest * option error.
Variable InsertUser :
  DB -> Context -> createUserRequest -> (string * option error) * DB.

Local Abbreviation handleCreateUser := (handleCreateUser Body DB Decode InsertUser).
Local Abbreviation CreateUserHandler := (CreateUserHandler Body DB Decode InsertUser).
Local Abbreviation World := (World Body DB).
Local Abbreviation outcome := (outcome Body DB Decode InsertUser).

(** [handleCreateUser] always returns, along one of the four ways. *)
Lemma handleCreateUser_outcome (c : Controller) (ctx : Context)
      (req : Request Body) (w : World) :
  outcome c ctx req w (handleCreateUser c ctx req w).
Proof.
  unfold handleCreateUser, bind, decodeBody, insertUser, emit, ret; simpl.
  destruct (Decode (reqBody req)) as [cur [e |]] eqn:D.
  - eapply DecodeFailed; eassumption.
  - destruct (validateCreateUserRequest cur) as [e |] eqn:V.
    + eapply ValidationFailed; eassumption.
    + cbn [db trace].
      destruct (InsertUser (db w) ctx cur) as [[userID [e |]] db'] eqn:I.
      * eapply InsertFailed; eassumption.
      * eapply Created; eassumption.
Qed.

Lemma inserts_decoded (req : Request Body) (w : World) :
  inserts (decoded req w) = inserts w.
Proof.
  unfold inserts, decoded; simpl.
  rewrite flat_map_app; simpl. apply app_nil_r.
Qed.

Lemma inserts_inserted (req : Request Body) (ctx : Context)
      (cur : createUserRequest) (db' : DB) (w : World) :
  inserts (inserted req ctx cur db' w) = (inserts w ++ [cur])%list.
Proof.
  unfold inserts, inserted; simpl.
  rewrite !flat_map_app; simpl. rewrite app_nil_r. reflexivity.
Qed.

(** Brings the equations of the path taken and those of the case under
    proof together; a case on another path is closed by the clash. *)
Ltac same_path :=
  repeat match goal with
  | [ D : ?f = (_, _), D' : ?f = (_, _) |- _ ] =>
      rewrite D in D'; first [discriminate D' | injection D' as; subst]
  | [ V : ?f = Some _, V' : ?f = Some _ |- _ ] =>
      rewrite V in V'; injection V' as; subst
  | [ V : ?f = None, V' : ?f = Some _ |- _ ] =>
      rewrite V in V'; discriminate V'
  | [ V : ?f = Some _, V' : ?f = None |- _ ] =>
      rewrite V in V'; discriminate V'
  end.

(** C7. The create-user flow: the body is decoded, the decoded request is
    validated, and only a valid request is inserted.  When decoding or
    validation fails the error wraps [errBadRequest] and the insert has not
    been called; when the insert fails the error wraps [errInternal]; on
    success the response carries the inserted user's ID and the error is
    nil. *)
Theorem handleCreateUser_flow (c : Controller) (ctx : Context)
        (req : Request Body) (w : World) :
  let body := reqBody req in
  let '(resp, err, w') := handleCreateUser c ctx req w in
  (forall cur e,
      Decode body = (cur, Some e) ->
      resp = {| ID := "" |}
      /\ (exists err', err = Some err'
            /\ Is err' errBadRequest = true
            /\ Error err' = "failed to decode. " ++ Error e ++ ". input error")
      /\ trace w' = (trace w ++ [Decoded body])%list
      /\ inserts w' = inserts w
      /\ db w' = db w)
  /\ (forall cur e,
      Decode body = (cur, None) ->
      validateCreateUserRequest cur = Some e ->
      resp = {| ID := "" |}
      /\ (exists err', err = Some err'
            /\ Is err' errBadRequest = true
            /\ Error err' = "failed to validate create user request. "
                            ++ Error e ++ ". input error")
      /\ trace w' = (trace w ++ [Decoded body])%list
      /\ inserts w' = inserts w
      /\ db w' = db w)
  /\ (forall cur userID e db',
      Decode body = (cur, None) ->
      validateCreateUserRequest cur = None ->
      InsertUser (db w) ctx cur = ((userID, Some e), db') ->
      resp = {| ID := "" |}
      /\ (exists err', err = Some err'
            /\ Is err' errInternal = true
            /\ Error err' = "failed to insert user. "
                            ++ Error e ++ ". internal error")
      /\ trace w' = (trace w ++ [Decoded body; Inserted ctx cur])%list
      /\ inserts w' = (inserts w ++ [cur])%list
      /\ db w' = db')
  /\ (forall cur userID db',
      Decode body = (cur, None) ->
      validateCreateUserRequest cur = None ->
      InsertUser (db w) ctx cur = ((userID, None), db') ->
      resp = {| ID := userID |}
      /\ err = None
      /\ trace w' = (trace w ++ [Decoded body; Inserted ctx cur])%list
      /\ inserts w' = (inserts w ++ [cur])%list
      /\ db w' = db').
Proof.
  intros body.
  pose proof (handleCreateUser_outcome c ctx req w) as O.
  destruct (handleCreateUser c ctx req w) as [[resp err] w'].
  subst body.
  inversion O as [cur0 e0 D | cur0 e0 D V | cur0 id0 e0 db0 D V I
                  | cur0 id0 db0 D V I]; subst; clear O;
    (split; [| split; [| split]]); intros; same_path.
  - split; [reflexivity |]. split.
    + eexists; split; [reflexivity |]. split; reflexivity.
    + split; [reflexivity |]. split; [apply inserts_decoded | reflexivity].
  - split; [reflexivity |]. split.
    + eexists; split; [reflexivity |]. split; reflexivity.
    + split; [reflexivity |]. split; [apply inserts_decoded | reflexivity].
  - split; [reflexivity |]. split.
    + eexists; split; [reflexivity |]. split; reflexivity.
    + split; [unfold inserted; simpl; rewrite <- app_assoc; reflexivity |].
      split; [apply inserts_inserted | reflexivity].
  - split; [reflexivity |]. split; [reflexivity |].
    split; [unfold inserted; simpl; rewrite <- app_assoc; reflexivity |].
    split; [apply inserts_inserted | reflexivity].
Qed.

(** An error of [handleCreateUser] wraps one sentinel and not the other. *)
Lemma handleCreateUser_error_sentinel (c : Controller) (ctx : Context)
      (req : Request Body) (w w1 : World) (resp : createUserResponse)
      (err : error) :
  handleCreateUser c ctx req w = (resp, Some err, w1) ->
  (Is err errBadRequest = true /\ Is err errInternal = false)
  \/ (Is err errBadRequest = false /\ Is err errInternal = true).
Proof.
  intros H.
  pose proof (handleCreateUser_outcome c ctx req w) as O.
  rewrite H in O.
  inversion O; subst.
  - left; apply Is_Errorf_badRequest.
  - left; apply Is_Errorf_badRequest.
  - right; split; apply Is_Errorf_internal.
Qed.

(** [handleCreateUser] writes no response of its own. *)
Lemma handleCreateUser_responses (c : Controller) (ctx : Context)
      (req : Request Body) (w : World) :
  responses (snd (handleCreateUser c ctx req w)) = responses w.
Proof.
  pose proof (handleCreateUser_outcome c ctx req w) as O.
  destruct (handleCreateUser c ctx req w) as [[resp err] w'].
  inversion O; subst; unfold responses, inserted, decoded; simpl;
    rewrite !flat_map_app; simpl; rewrite ?app_nil_r; reflexivity.
Qed.

(** C10. Every error that [handleCreateUser] returns wraps exactly one of
    the two sentinels, so the status mapping of [CreateUserHandler], which
    responds only in its [errBadRequest] and [errInternal] branches, writes
    one response whenever [handleCreateUser] fails. *)
Theorem sentinel_exhaustive (c : Controller) (req : Request Body) (w : World) :
  (forall ctx resp err w1,
      handleCreateUser c ctx req w = (resp, Some err, w1) ->
      xorb (Is err errBadRequest) (Is err errInternal) = true)
  /\ (forall resp err w1,
      Enabled (settingsData c) = true ->
      handleCreateUser c (reqContext req) req w = (resp, Some err, w1) ->
      exists status body,
        responses (snd (CreateUserHandler c req w))
          = (responses w ++ [(status, body)])%list
        /\ ((Is err errBadRequest = true
             /\ status = StatusBadRequest /\ body = responseError (Some err))
            \/ (Is err errInternal = true
                /\ status = StatusInternalServerError
                /\ body = responseError None))).
Proof.
  split.
  - intros ctx resp err w1 H.
    destruct (handleCreateUser_error_sentinel c ctx req w w1 resp err H)
      as [[-> ->] | [-> ->]]; reflexivity.
  - intros resp err w1 En H.
    pose proof (handleCreateUser_responses c (reqContext req) req w) as R.
    rewrite H in R; simpl in R.
    unfold CreateUserHandler. rewrite En; simpl.
    unfold bind at 1. rewrite H.
    unfold bind, logError, Respond, emit; simpl.
    destruct (handleCreateUser_error_sentinel c _ req w w1 resp err H)
      as [[B I] | [B I]]; rewrite B; [| rewrite I];
      unfold responses; simpl;
      rewrite !flat_map_app; simpl; rewrite app_nil_r;
      fold (responses w1); rewrite R.
    + exists StatusBadRequest, (responseError (Some err)).
      split; [reflexivity | left; auto].
    + exists StatusInternalServerError, (responseError None).
      split; [reflexivity | right; auto].
Qed.

End HandlerProperties.

(** ** The handlers on the concrete collaborators *)

Lemma handleCreateUser_flow_witness :
  let run body rows :=
    handleCreateUser Demo.Body Demo.DB Demo.Decode Demo.InsertUser
      Demo.enabled emptyCtx (Demo.request body) (Demo.world rows) in
  (* malformed body *)
  (inserts (snd (run None [])) = []
   /\ exists err, snd (fst (run None [])) = Some err
                  /\ Is err errBadRequest = true)
  (* decoded, rejected by the validation *)
  /\ (inserts (snd (run (Some Demo.anonymous) [])) = []
      /\ exists err, snd (fst (run (Some Demo.anonymous) [])) = Some err
                     /\ Is err errBadRequest = true)
  (* decoded and valid, the insert fails *)
  /\ (exists err,
        snd (fst (run (Some Demo.ann) [Demo.ann; Demo.ann])) = Some err
        /\ Is err errInternal = true)
  (* decoded and valid, the insert succeeds *)
  /\ fst (run (Some Demo.ann) []) = ({| ID := "user-Ann Lee" |}, None).
Proof.
  intros run.
  pose proof (handleCreateUser_flow Demo.Body Demo.DB Demo.Decode
                Demo.InsertUser Demo.enabled emptyCtx
                (Demo.request None) (Demo.world [])) as T1.
  pose proof (handleCreateUser_flow Demo.Body Demo.DB Demo.Decode
                Demo.InsertUser Demo.enabled emptyCtx
                (Demo.request (Some Demo.anonymous)) (Demo.world [])) as T2.
  pose proof (handleCreateUser_flow Demo.Body Demo.DB Demo.Decode
                Demo.InsertUser Demo.enabled emptyCtx
                (Demo.request (Some Demo.ann))
                (Demo.world [Demo.ann; Demo.ann])) as T3.
  pose proof (handleCreateUser_flow Demo.Body Demo.DB Demo.Decode
                Demo.InsertUser Demo.enabled emptyCtx
                (Demo.request (Some Demo.ann)) (Demo.world [])) as T4.
  cbv zeta in T1, T2, T3, T4. subst run. cbv beta.
  destruct (handleCreateUser _ _ _ _ _ _ (Demo.request None) _)
    as [[resp1 err1] w1].
  destruct (handleCreateUser _ _ _ _ _ _ (Demo.request (Some Demo.anonymous)) _)
    as [[resp2 err2] w2].
  destruct (handleCreateUser _ _ _ _ _ _ _ (Demo.world [Demo.ann; Demo.ann]))
    as [[resp3 err3] w3].
  destruct (handleCreateUser _ _ _ _ _ _ _ (Demo.world []))
    as [[resp4 err4] w4].
  destruct T1 as (T1 & _). destruct T2 as (_ & T2 & _).
  destruct T3 as (_ & _ & T3 & _). destruct T4 as (_ & _ & _ & T4).
  specialize (T1 _ _ eq_refl).
  specialize (T2 _ _ eq_refl eq_refl).
  specialize (T3 _ _ _ _ eq_refl eq_refl eq_refl).
  specialize (T4 _ _ _ eq_refl eq_refl eq_refl).
  destruct T1 as (_ & (e1 & E1 & I1 & _) & _ & N1 & _).
  destruct T2 as (_ & (e2 & E2 & I2 & _) & _ & N2 & _).
  destruct T3 as (_ & (e3 & E3 & I3 & _) & _).
  destruct T4 as (R4 & E4 & _).
  split; [split; [exact N1 | exists e1; split; assumption] |].
  split; [split; [exact N2 | exists e2; split; assumption] |].
  split; [exists e3; split; assumption |].
  rewrite R4, E4; reflexivity.
Defined.

Lemma sentinel_exhaustive_witness :
  let handle body rows :=
    handleCreateUser Demo.Body Demo.DB Demo.Decode Demo.InsertUser
      Demo.enabled (reqContext (Demo.request body)) (Demo.request body)
      (Demo.world rows) in
  let serve body rows :=
    responses (snd (CreateUserHandler Demo.Body Demo.DB Demo.Decode
                      Demo.InsertUser Demo.enabled (Demo.request body)
                      (Demo.world rows))) in
  (exists err, snd (fst (handle None [])) = Some err)
  /\ (exists body, serve None [] = [(StatusBadRequest, body)])
  /\ (exists err,
        snd (fst (handle (Some Demo.ann) [Demo.ann; Demo.ann])) = Some err)
  /\ serve (Some Demo.ann) [Demo.ann; Demo.ann]
     = [(StatusInternalServerError, responseError None)].
Proof.
  intros handle serve.
  destruct (sentinel_exhaustive Demo.Body Demo.DB Demo.Decode Demo.InsertUser
              Demo.enabled (Demo.request None) (Demo.world [])) as [_ T1].
  destruct (sentinel_exhaustive Demo.Body Demo.DB Demo.Decode Demo.InsertUser
              Demo.enabled (Demo.request (Some Demo.ann))
              (Demo.world [Demo.ann; Demo.ann])) as [_ T2].
  specialize (T1 _ _ _ eq_refl eq_refl).
  specialize (T2 _ _ _ eq_refl eq_refl).
  destruct T1 as (st1 & b1 & R1 & [(_ & -> & _) | (I1 & _)]);
    [| discriminate I1].
  destruct T2 as (st2 & b2 & R2 & [(I2 & _) | (_ & -> & ->)]);
    [discriminate I2 |].
  split; [eexists; reflexivity |].
  split; [exists b1; exact R1 |].
  split; [eexists; reflexivity | exact R2].
Defined.


(* ================================================================== *)
(** * Part III: further properties of the code                         *)
(* ================================================================== *)

(** ** The accessors on arbitrary chains *)

Lemma assert_GetMainContext (ctx : Context) (v : any) :
  snd (assertMainContext v) = false ->
  GetMainContext (WithValue ctx mainContextKey v) = zeroMainContext.
Proof.
  intros H. apply GetMainContext_not_found.
  rewrite Value_WithValue_same. exact H.
Qed.

(** X1. Field round trip: on every chain, the request ID read after
    [SetRequestID] is the one that was set, and the one read after
    [SetMainContext] is the field of the scope that was bound. *)
Theorem GetRequestID_after_set (ctx : Context) (s : mainContext) (x : string) :
  GetRequestID (SetRequestID ctx x) = x
  /\ GetRequestID (SetMainContext ctx s) = RequestID s.
Proof.
  unfold GetRequestID. rewrite SetRequestID_unfold. unfold SetMainContext.
  rewrite !GetMainContext_bound. split; reflexivity.
Qed.

(** X2. On a chain without a bound scope the request ID reads as the empty
    string, and [SetRequestID] starts from the zero scope: the scope read
    afterwards has the new request ID and an empty IP address. *)
Theorem SetRequestID_without_scope (ctx : Context) (x : string) :
  scopeBound ctx = false ->
  GetRequestID ctx = ""
  /\ GetMainContext (SetRequestID ctx x) = {| RequestID := x; IPAddress := "" |}
  /\ scopeBound (SetRequestID ctx x) = true.
Proof.
  intros H.
  assert (Z : GetMainContext ctx = zeroMainContext)
    by apply GetMainContext_not_found, scopeBound_false_Value, H.
  split; [unfold GetRequestID; rewrite Z; reflexivity |].
  split; [| reflexivity].
  rewrite SetRequestID_unfold. unfold SetMainContext.
  rewrite GetMainContext_bound, Z. reflexivity.
Qed.

Lemma SetRequestID_without_scope_witness :
  let ctx := cancelCtx (valueCtx emptyCtx (stringVal "user") (stringVal "u1")) in
  scopeBound ctx = false
  /\ GetMainContext (SetRequestID ctx "new-id")
     = {| RequestID := "new-id"; IPAddress := "" |}.
Proof.
  intros ctx.
  assert (H : scopeBound ctx = false) by reflexivity.
  split; [exact H |].
  apply (SetRequestID_without_scope ctx "new-id" H).
Defined.

(** X3. Setting the request ID twice reads as setting the last one once:
    the second update keeps nothing of the first but the other fields, which
    the first had kept. *)
Theorem SetRequestID_last_wins (ctx : Context) (x y : string) :
  GetMainContext (SetRequestID (SetRequestID ctx x) y)
  = GetMainContext (SetRequestID ctx y)
  /\ GetMainContext (SetRequestID (SetRequestID ctx x) x)
     = GetMainContext (SetRequestID ctx x).
Proof.
  assert (E : forall a b,
             GetMainContext (SetRequestID (SetRequestID ctx a) b)
             = GetMainContext (SetRequestID ctx b)).
  { intros a b. rewrite (SetRequestID_unfold (SetRequestID ctx a)).
    rewrite !SetRequestID_unfold. unfold SetMainContext.
    rewrite !GetMainContext_bound. reflexivity. }
  split; apply E.
Qed.

(** X4. The setters touch the package's slot only: every other key reads
    the same on the new chain as on the chain it was built from. *)
Theorem setters_keep_other_keys
        (ctx : Context) (s : mainContext) (x : string) (key : any) :
  key <> mainContextKey ->
  Value (SetMainContext ctx s) key = Value ctx key
  /\ Value (SetRequestID ctx x) key = Value ctx key.
Proof.
  intros N.
  assert (N' : mainContextKey <> key) by congruence.
  split.
  - unfold SetMainContext. apply Value_WithValue_other, N'.
  - unfold SetRequestID. apply Value_WithValue_other, N'.
Qed.

Lemma setters_keep_other_keys_witness :
  let ctx := valueCtx emptyCtx (stringVal "user") (stringVal "u1") in
  let s := {| RequestID := "abc"; IPAddress := "1.2.3.4" |} in
  stringVal "user" <> mainContextKey
  /\ Value (SetMainContext ctx s) (stringVal "user") = stringVal "u1"
  /\ Value (SetRequestID ctx "new-id") (stringVal "user") = stringVal "u1".
Proof.
  intros ctx s.
  assert (N : stringVal "user" <> mainContextKey) by discriminate.
  destruct (setters_keep_other_keys ctx s "new-id" (stringVal "user") N)
    as [E1 E2].
  split; [exact N |]. split; [rewrite E1 | rewrite E2]; reflexivity.
Defined.

(** X5. The innermost binding of the package's key decides the read: when
    it holds a value that is not a [mainContext], the read is the zero scope
    although a scope is bound beneath it, and a [SetRequestID] on top starts
    from the zero scope, so the IP address bound beneath is not carried
    over. *)
Theorem wrong_shape_masks_scope
        (ctx : Context) (s : mainContext) (v : any) (x : string) :
  snd (assertMainContext v) = false ->
  let masked := WithValue (SetMainContext ctx s) mainContextKey v in
  scopeBound masked = true
  /\ GetMainContext masked = {| RequestID := ""; IPAddress := "" |}
  /\ GetMainContext (SetRequestID masked x)
     = {| RequestID := x; IPAddress := "" |}.
Proof.
  intros H masked.
  assert (Z : GetMainContext masked = zeroMainContext)
    by (apply assert_GetMainContext, H).
  split; [simpl; apply orb_true_r |].
  split; [exact Z |].
  rewrite SetRequestID_unfold. unfold SetMainContext at 1.
  rewrite GetMainContext_bound, Z. reflexivity.
Qed.

Lemma wrong_shape_masks_scope_witness :
  let s := {| RequestID := "abc"; IPAddress := "1.2.3.4" |} in
  let masked := WithValue (SetMainContext emptyCtx s) mainContextKey
                          (stringVal "abc") in
  snd (assertMainContext (stringVal "abc")) = false
  /\ GetMainContext masked = {| RequestID := ""; IPAddress := "" |}
  /\ GetMainContext (SetRequestID masked "new-id")
     = {| RequestID := "new-id"; IPAddress := "" |}.
Proof.
  intros s masked.
  assert (H : snd (assertMainContext (stringVal "abc")) = false) by reflexivity.
  destruct (wrong_shape_masks_scope emptyCtx s (stringVal "abc") "new-id" H)
    as (_ & E1 & E2).
  split; [exact H |]. split; [exact E1 | exact E2].
Defined.

(** X6. The read never makes a scope up: what it returns is the zero scope
    or one of the scopes bound on the chain, and it is the zero scope when
    none is bound. *)
Theorem GetMainContext_from_chain (ctx : Context) :
  (GetMainContext ctx = zeroMainContext
   \/ In (GetMainContext ctx) (boundScopes ctx))
  /\ (boundScopes ctx = [] -> GetMainContext ctx = zeroMainContext).
Proof.
  assert (A : GetMainContext ctx = zeroMainContext
              \/ In (GetMainContext ctx) (boundScopes ctx)).
  { induction ctx as [| parent IH key val | parent IH].
    - left; reflexivity.
    - unfold GetMainContext in *; simpl.
      destruct (any_eqb key mainContextKey) eqn:E.
      + destruct val; simpl; try (left; reflexivity).
        right; left; reflexivity.
      + destruct IH as [IH | IH]; [left; exact IH |].
        right. destruct val; exact IH.
    - exact IH. }
  split; [exact A |].
  intros N. destruct A as [A | A]; [exact A |].
  rewrite N in A; contradiction.
Qed.

Lemma GetMainContext_from_chain_witness :
  let ctx := valueCtx emptyCtx mainContextKey (stringVal "abc") in
  boundScopes ctx = [] /\ GetMainContext ctx = zeroMainContext.
Proof.
  intros ctx.
  assert (N : boundScopes ctx = []) by reflexivity.
  split; [exact N |].
  apply (GetMainContext_from_chain ctx); exact N.
Defined.

(** ** Chains that share a parent *)

Lemma Store_GetMainContext_cons (h : Store.heap) (n : Store.node)
      (ctx : Store.addr) :
  Store.valid h ctx ->
  Store.GetMainContext (n :: h) ctx = Store.GetMainContext h ctx.
Proof. apply Store_GetMainContext_alloc. Qed.

(** X7. Two chains derived from the same parent do not see each other:
    after a [SetMainContext] and then a [SetRequestID] on the same handle,
    the first child still reads its own scope, the second reads the parent's
    scope with the new request ID (not the sibling's), and the parent reads
    what it read before. *)
Theorem siblings_do_not_interfere
        (h : Store.heap) (ctx : Store.addr) (s : mainContext) (x : string) :
  Store.valid h ctx ->
  let (h1, child1) := Store.SetMainContext h ctx s in
  let (h2, child2) := Store.SetRequestID h1 ctx x in
  Store.GetMainContext h2 child1 = s
  /\ Store.GetMainContext h2 child2
     = {| RequestID := x; IPAddress := IPAddress (Store.GetMainContext h ctx) |}
  /\ Store.GetMainContext h2 ctx = Store.GetMainContext h ctx
  /\ child1 <> child2.
Proof.
  intros V.
  destruct (Store.SetMainContext h ctx s) as [h1 child1] eqn:E1.
  unfold Store.SetMainContext, Store.WithValue, Store.alloc in E1.
  injection E1 as <- <-.
  set (h1 := Store.valueNode ctx mainContextKey (mainContextVal s) :: h).
  assert (V1 : Store.valid h1 ctx)
    by (unfold Store.valid in *; simpl; lia).
  assert (Vc : Store.valid h1 (length h))
    by (unfold Store.valid; simpl; lia).
  assert (P : Store.GetMainContext h1 ctx = Store.GetMainContext h ctx)
    by (apply (Store_GetMainContext_alloc h _ ctx V)).
  assert (C1 : Store.GetMainContext h1 (length h) = s).
  { rewrite Store_GetMainContext_reify. unfold h1; simpl.
    rewrite Nat.eqb_refl. apply GetMainContext_bound. }
  destruct (Store.SetRequestID h1 ctx x) as [h2 child2] eqn:E2.
  pose proof (Store_reify_SetRequestID h1 ctx x) as R2.
  rewrite E2 in R2; cbn [fst snd] in R2.
  unfold Store.SetRequestID, Store.WithValue in E2.
  injection E2 as <- <-.
  split; [rewrite (Store_GetMainContext_cons h1 _ _ Vc); exact C1 |].
  split.
  - rewrite (Store_GetMainContext_reify (_ :: h1)), R2, SetRequestID_unfold.
    unfold SetMainContext. rewrite GetMainContext_bound.
    rewrite <- Store_GetMainContext_reify, P. reflexivity.
  - split; [rewrite (Store_GetMainContext_cons h1 _ _ V1); exact P |].
    unfold h1; simpl; lia.
Qed.

Lemma siblings_do_not_interfere_witness :
  let h := [Store.valueNode 0 mainContextKey
              (mainContextVal {| RequestID := "abc"; IPAddress := "1.2.3.4" |});
            Store.emptyNode] in
  let s := {| RequestID := "r2"; IPAddress := "10.0.0.1" |} in
  let h1 := fst (Store.SetMainContext h 1 s) in
  let h2 := fst (Store.SetRequestID h1 1 "new-id") in
  Store.valid h 1
  /\ Store.GetMainContext h2 2 = s
  /\ Store.GetMainContext h2 3
     = {| RequestID := "new-id"; IPAddress := "1.2.3.4" |}.
Proof.
  intros h s h1 h2.
  assert (V : Store.valid h 1) by (unfold Store.valid; simpl; lia).
  pose proof (siblings_do_not_interfere h 1 s "new-id" V) as T.
  simpl in T. destruct T as (T1 & T2 & _).
  split; [exact V |]. split; [exact T1 | exact T2].
Defined.

(** ** Validation, field by field *)

Lemma validate_nil_wellFormed (cur : createUserRequest) :
  validateCreateUserRequest cur = None -> wellFormed cur.
Proof.
  rewrite validateCreateUserRequest_messages. intros H.
  apply applicableMessages_nil_iff.
  destruct (applicableMessages cur); [reflexivity | discriminate].
Qed.

(** X8. A request that is wrong in exactly one field is refused with that
    field's message alone, without a separator: shown for each of the five
    fields on an otherwise accepted request. *)
Theorem validateCreateUserRequest_single_field
        (cur : createUserRequest) (st : string) :
  wellFormed cur ->
  String.length st <> 2 ->
  validateCreateUserRequest
    {| FullName := ""; Address := Address cur; City := City cur;
       State := State cur; ZipCode := ZipCode cur |}
  = Some (errorString "full name is required")
  /\ validateCreateUserRequest
       {| FullName := FullName cur; Address := ""; City := City cur;
          State := State cur; ZipCode := ZipCode cur |}
     = Some (errorString "address is required")
  /\ validateCreateUserRequest
       {| FullName := FullName cur; Address := Address cur; City := "";
          State := State cur; ZipCode := ZipCode cur |}
     = Some (errorString "city is required")
  /\ validateCreateUserRequest
       {| FullName := FullName cur; Address := Address cur; City := City cur;
          State := st; ZipCode := ZipCode cur |}
     = Some (errorString "state is required and must be 2 characters")
  /\ validateCreateUserRequest
       {| FullName := FullName cur; Address := Address cur; City := City cur;
          State := State cur; ZipCode := 0 |}
     = Some (errorString "zip code is required").
Proof.
  intros (F & A & C & S & Z) N.
  apply String.eqb_neq in F, A, C.
  apply Nat.eqb_eq in S. apply Nat.eqb_neq in N. apply Z.eqb_neq in Z.
  repeat rewrite validateCreateUserRequest_messages.
  unfold applicableMessages, fieldChecks; simpl.
  rewrite F, A, C, S, N, Z. simpl.
  repeat split.
Qed.

Lemma validateCreateUserRequest_single_field_witness :
  wellFormed Demo.ann
  /\ String.length "Ohio" <> 2
  /\ validateCreateUserRequest
       {| FullName := "Ann Lee"; Address := "1 Main St"; City := "Akron";
          State := "Ohio"; ZipCode := 44301 |}
     = Some (errorString "state is required and must be 2 characters").
Proof.
  assert (W : wellFormed Demo.ann)
    by (unfold wellFormed; simpl; repeat split; discriminate).
  assert (N : String.length "Ohio" <> 2) by (simpl; lia).
  destruct (validateCreateUserRequest_single_field Demo.ann "Ohio" W N)
    as (_ & _ & _ & T & _).
  split; [exact W |]. split; [exact N | exact T].
Defined.

(** ** The create-user endpoint as a whole *)

(** Identifies the results of one call that two hypotheses name. *)
Ltac agree :=
  repeat match goal with
  | [ D : ?f = _, D' : ?f = _ |- _ ] =>
      rewrite D in D'; first [discriminate D' | injection D' as; subst]
  end.

Section HandlerRuns.

Variable Body : Type.
Variable DB : Type.
Variable Decode : Body -> createUserRequest * option error.
Variable InsertUser :
  DB -> Context -> createUserRequest -> (string * option error) * DB.

Local Abbreviation handleCreateUser :=
  (handleCreateUser Body DB Decode InsertUser).
Local Abbreviation CreateUserHandler :=
  (CreateUserHandler Body DB Decode InsertUser).
Local Abbreviation World := (World Body DB).
Local Abbreviation outcome := (outcome Body DB Decode InsertUser).

Lemma CreateUserHandler_disabled (c : Controller) (req : Request Body)
      (w : World) :
  Enabled (settingsData c) = false ->
  CreateUserHandler c req w
  = (tt, {| db := db w;
            trace := trace w
                     ++ [Responded StatusNotImplemented (responseError None)] |}).
Proof.
  intros En. unfold CreateUserHandler. rewrite En. reflexivity.
Qed.

Lemma CreateUserHandler_enabled (c : Controller) (req : Request Body)
      (w w1 : World) (resp : createUserResponse) (err : option error) :
  Enabled (settingsData c) = true ->
  handleCreateUser c (reqContext req) req w = (resp, err, w1) ->
  CreateUserHandler c req w
  = (tt, {| db := db w1; trace := trace w1 ++ answer resp err |}).
Proof.
  intros En H. unfold CreateUserHandler. rewrite En; simpl.
  unfold bind at 1. rewrite H.
  destruct err as [e |]; [| reflexivity].
  unfold bind, logError, Respond, emit, ret; simpl.
  destruct (handleCreateUser_error_sentinel _ _ Decode InsertUser
              c _ req w w1 resp e H) as [[B I] | [B I]];
    unfold answer; rewrite B; [| rewrite I]; cbn [db trace];
    rewrite <- app_assoc; reflexivity.
Qed.

Lemma responses_app (w : World) (db' : DB) (es : list (event Body)) :
  responses {| db := db'; trace := trace w ++ es |}
  = (responses w ++ responses {| db := db'; trace := es |})%list.
Proof. unfold responses; simpl. apply flat_map_app. Qed.

(** X9. The success path end to end: with the endpoint enabled, a body that
    decodes to a valid request and an insert that succeeds, the handler
    decodes, inserts once under the request's own context, answers 201 with
    the inserted user's ID, and leaves the database as the insert left it. *)
Theorem CreateUserHandler_created
        (c : Controller) (req : Request Body) (w : World)
        (cur : createUserRequest) (userID : string) (db' : DB) :
  Enabled (settingsData c) = true ->
  Decode (reqBody req) = (cur, None) ->
  validateCreateUserRequest cur = None ->
  InsertUser (db w) (reqContext req) cur = ((userID, None), db') ->
  CreateUserHandler c req w
  = (tt, {| db := db';
            trace := trace w
                     ++ [Decoded (reqBody req);
                         Inserted (reqContext req) cur;
                         Responded StatusCreated
                           (responseSuccess {| ID := userID |})] |}).
Proof.
  intros En D V I.
  pose proof (handleCreateUser_outcome _ _ Decode InsertUser
                c (reqContext req) req w) as O.
  destruct (handleCreateUser c (reqContext req) req w) as [[resp err] w1] eqn:H.
  rewrite (CreateUserHandler_enabled c req w w1 resp err En H).
  inversion O; subst; agree.
  unfold inserted, answer; simpl. rewrite <- !app_assoc. reflexivity.
Qed.

(** X10. Every run of [CreateUserHandler] writes exactly one response, of
    one of four kinds: 501 without an error when the endpoint is disabled,
    400 with the error when it wraps [errBadRequest], 500 without the error
    when it wraps [errInternal], and 201 with the response on success. *)
Theorem CreateUserHandler_one_response
        (c : Controller) (req : Request Body) (w : World) :
  exists status body,
    responses (snd (CreateUserHandler c req w))
    = (responses w ++ [(status, body)])%list
    /\ ((Enabled (settingsData c) = false
         /\ status = StatusNotImplemented /\ body = responseError None)
        \/ (exists err, status = StatusBadRequest
                        /\ body = responseError (Some err)
                        /\ Is err errBadRequest = true)
        \/ (status = StatusInternalServerError /\ body = responseError None)
        \/ (exists resp, status = StatusCreated
                         /\ body = responseSuccess resp)).
Proof.
  destruct (Enabled (settingsData c)) eqn:En.
  - destruct (handleCreateUser c (reqContext req) req w)
      as [[resp err] w1] eqn:H.
    pose proof (handleCreateUser_responses _ _ Decode InsertUser
                  c (reqContext req) req w) as R.
    rewrite H in R; simpl in R.
    rewrite (CreateUserHandler_enabled c req w w1 resp err En H); simpl.
    rewrite responses_app, R.
    destruct err as [e |].
    + destruct (handleCreateUser_error_sentinel _ _ Decode InsertUser
                  c _ req w w1 resp e H) as [[B I] | [B I]];
        unfold answer, responses; simpl; rewrite B; simpl.
      * exists StatusBadRequest, (responseError (Some e)).
        split; [reflexivity |]. right; left. exists e; auto.
      * exists StatusInternalServerError, (responseError None).
        split; [reflexivity |]. right; right; left; auto.
    + exists StatusCreated, (responseSuccess resp).
      split; [reflexivity |]. right; right; right. exists resp; auto.
  - rewrite (CreateUserHandler_disabled c req w En); simpl.
    rewrite responses_app.
    exists StatusNotImplemented, (responseError None).
    split; [reflexivity |]. left; auto.
Qed.

(** The calls to [InsertUser] that one run of [CreateUserHandler] adds. *)
Lemma CreateUserHandler_new_inserts
      (c : Controller) (req : Request Body) (w : World)
      (ctx : Context) (cur : createUserRequest) :
  In (Inserted ctx cur) (trace (snd (CreateUserHandler c req w))) ->
  In (Inserted ctx cur) (trace w)
  \/ (ctx = reqContext req
      /\ Enabled (settingsData c) = true
      /\ Decode (reqBody req) = (cur, None)
      /\ validateCreateUserRequest cur = None).
Proof.
  destruct (Enabled (settingsData c)) eqn:En.
  - pose proof (handleCreateUser_outcome _ _ Decode InsertUser
                  c (reqContext req) req w) as O.
    destruct (handleCreateUser c (reqContext req) req w)
      as [[resp err] w1] eqn:H.
    rewrite (CreateUserHandler_enabled c req w w1 resp err En H); simpl.
    intros I. apply in_app_or in I as [I | I].
    + inversion O; subst; unfold decoded, inserted in I; simpl in I;
        repeat (apply in_app_or in I as [I | I]); auto;
        simpl in I; destruct I as [I | []]; try discriminate I.
      * injection I as <- <-. right; auto.
      * injection I as <- <-. right; auto.
    + exfalso. destruct err as [e |]; simpl in I.
      * destruct I as [I | [I | []]]; [discriminate I |].
        destruct (Is e errBadRequest); discriminate I.
      * destruct I as [I | []]; discriminate I.
  - rewrite (CreateUserHandler_disabled c req w En); simpl.
    intros I. apply in_app_or in I as [I | I]; [left; exact I |].
    simpl in I. destruct I as [I | []]; discriminate I.
Qed.

Lemma inserts_app (w : World) (db' : DB) (es : list (event Body)) :
  inserts {| db := db'; trace := trace w ++ es |}
  = (inserts w ++ inserts {| db := db'; trace := es |})%list.
Proof. unfold inserts; simpl. apply flat_map_app. Qed.

Lemma inserts_answer (db' : DB) (resp : createUserResponse)
      (err : option error) :
  inserts {| db := db'; trace := @answer Body resp err |} = [].
Proof.
  destruct err as [e |]; [| reflexivity].
  unfold inserts, answer; simpl. destruct (Is e errBadRequest); reflexivity.
Qed.

(** X11. One run of [CreateUserHandler] calls [InsertUser] at most once,
    and only with the request that the body decodes to, only when that
    request passes the validation, and only when the endpoint is enabled:
    the database is never handed a request that the validation refuses. *)
Theorem CreateUserHandler_inserts_valid
        (c : Controller) (req : Request Body) (w : World) :
  inserts (snd (CreateUserHandler c req w)) = inserts w
  \/ (exists cur,
        inserts (snd (CreateUserHandler c req w)) = (inserts w ++ [cur])%list
        /\ wellFormed cur
        /\ Decode (reqBody req) = (cur, None)
        /\ Enabled (settingsData c) = true).
Proof.
  destruct (Enabled (settingsData c)) eqn:En.
  - pose proof (handleCreateUser_outcome _ _ Decode InsertUser
                  c (reqContext req) req w) as O.
    destruct (handleCreateUser c (reqContext req) req w)
      as [[resp err] w1] eqn:H.
    rewrite (CreateUserHandler_enabled c req w w1 resp err En H); simpl.
    rewrite inserts_app, inserts_answer, app_nil_r.
    inversion O as [cur e D | cur e D V | cur userID e db' D V I
                    | cur userID db' D V I]; subst.
    + left; apply inserts_decoded.
    + left; apply inserts_decoded.
    + right; exists cur. split; [apply inserts_inserted |].
      split; [apply validate_nil_wellFormed, V | auto].
    + right; exists cur. split; [apply inserts_inserted |].
      split; [apply validate_nil_wellFormed, V | auto].
  - rewrite (CreateUserHandler_disabled c req w En); simpl.
    left. rewrite inserts_app. apply app_nil_r.
Qed.

(** X12. The scope that the middleware binds reaches the database call:
    when the request's context is [SetMainContext ctx0 data], every call to
    [InsertUser] that the run adds is made under a context on which the
    accessors read [data], and with a request that passes the validation. *)
Theorem scope_reaches_insert
        (c : Controller) (req : Request Body) (w : World)
        (ctx0 : Context) (data : mainContext)
        (ctx : Context) (cur : createUserRequest) :
  reqContext req = SetMainContext ctx0 data ->
  In (Inserted ctx cur) (trace (snd (CreateUserHandler c req w))) ->
  In (Inserted ctx cur) (trace w)
  \/ (GetMainContext ctx = data
      /\ GetRequestID ctx = RequestID data
      /\ wellFormed cur).
Proof.
  intros R I.
  destruct (CreateUserHandler_new_inserts c req w ctx cur I)
    as [Old | (-> & _ & _ & V)]; [left; exact Old | right].
  rewrite R. unfold GetRequestID, SetMainContext.
  rewrite GetMainContext_bound.
  split; [reflexivity |]. split; [reflexivity |].
  apply validate_nil_wellFormed, V.
Qed.

End HandlerRuns.

Lemma CreateUserHandler_created_witness :
  let req := Demo.request (Some Demo.ann) in
  Enabled (settingsData Demo.enabled) = true
  /\ Demo.Decode (reqBody req) = (Demo.ann, None)
  /\ validateCreateUserRequest Demo.ann = None
  /\ responses (snd (CreateUserHandler Demo.Body Demo.DB Demo.Decode
                       Demo.InsertUser Demo.enabled req (Demo.world [])))
     = [(StatusCreated, responseSuccess {| ID := "user-Ann Lee" |})]
  /\ db (snd (CreateUserHandler Demo.Body Demo.DB Demo.Decode
                Demo.InsertUser Demo.enabled req (Demo.world [])))
     = [Demo.ann].
Proof.
  intros req.
  pose proof (CreateUserHandler_created Demo.Body Demo.DB Demo.Decode
                Demo.InsertUser Demo.enabled req (Demo.world [])
                Demo.ann "user-Ann Lee" [Demo.ann]
                eq_refl eq_refl eq_refl eq_refl) as T.
  rewrite T.
  split; [reflexivity |]. split; [reflexivity |]. split; [reflexivity |].
  split; reflexivity.
Defined.

Lemma scope_reaches_insert_witness :
  let req := Demo.request (Some Demo.ann) in
  let data := {| RequestID := "abc"; IPAddress := "1.2.3.4" |} in
  let w' := snd (CreateUserHandler Demo.Body Demo.DB Demo.Decode
                   Demo.InsertUser Demo.enabled req (Demo.world [])) in
  reqContext req = SetMainContext emptyCtx data
  /\ In (Inserted (reqContext req) Demo.ann) (trace w')
  /\ GetRequestID (reqContext req) = "abc".
Proof.
  intros req data w'.
  assert (R : reqContext req = SetMainContext emptyCtx data) by reflexivity.
  assert (I : In (Inserted (reqContext req) Demo.ann) (trace w'))
    by (right; left; reflexivity).
  destruct (scope_reaches_insert Demo.Body Demo.DB Demo.Decode
              Demo.InsertUser Demo.enabled req (Demo.world [])
              emptyCtx data (reqContext req) Demo.ann R I)
    as [[] | (_ & G & _)].
  split; [exact R |]. split; [exact I | exact G].
Defined.

(** ** The settings of the service *)

Section SettingsProperties.

Variable Client : Type.
Variable Get : Client -> (userSettingsData * option error) * Client.

Local Abbreviation InitializeUserSettings := (InitializeUserSettings Client Get).
Local Abbreviation UpdateUserSettingsHandler :=
  (UpdateUserSettingsHandler Client Get).
Local Abbreviation main := (main Client Get).

Lemma fetches_app (s : Service Client) (co : Controller) (cl : Client)
      (es : list settingsEvent) :
  fetches {| controller := co; client := cl; journal := journal s ++ es |}
  = fetches s + fetches {| controller := co; client := cl; journal := es |}.
Proof. unfold fetches; simpl. rewrite filter_app. apply length_app. Qed.

Lemma settingsResponses_app (s : Service Client) (co : Controller)
      (cl : Client) (es : list settingsEvent) :
  settingsResponses
    {| controller := co; client := cl; journal := journal s ++ es |}
  = (settingsResponses s
     ++ settingsResponses {| controller := co; client := cl; journal := es |})%list.
Proof. unfold settingsResponses; simpl. apply flat_map_app. Qed.

Lemma InitializeUserSettings_failed (s : Service Client)
      (usd : userSettingsData) (e : error) (client' : Client) :
  Get (client s) = ((usd, Some e), client') ->
  InitializeUserSettings s
  = (Some (Errorf_s_w "failed to get user settings. " e errInternal),
     {| controller := controller s; client := client';
        journal := journal s ++ [Fetched] |}).
Proof. intros G. unfold InitializeUserSettings. rewrite G. reflexivity. Qed.

Lemma InitializeUserSettings_fetched (s : Service Client)
      (usd : userSettingsData) (client' : Client) :
  Get (client s) = ((usd, None), client') ->
  InitializeUserSettings s
  = (None,
     {| controller := {| settingsData := usd |}; client := client';
        journal := journal s ++ [Fetched] |}).
Proof. intros G. unfold InitializeUserSettings. rewrite G. reflexivity. Qed.

(** X13. When the settings client fails, [InitializeUserSettings] returns an
    error that wraps [errInternal] (and not [errBadRequest]) and carries the
    client's message, and the controller keeps the settings it had. *)
Theorem InitializeUserSettings_failure
        (s : Service Client) (usd : userSettingsData) (e : error)
        (client' : Client) :
  Get (client s) = ((usd, Some e), client') ->
  exists err s',
    InitializeUserSettings s = (Some err, s')
    /\ Is err errInternal = true
    /\ Is err errBadRequest = false
    /\ Error err = "failed to get user settings. " ++ Error e ++ ". internal error"
    /\ controller s' = controller s
    /\ client s' = client'
    /\ fetches s' = S (fetches s).
Proof.
  intros G. rewrite (InitializeUserSettings_failed s usd e client' G).
  eexists; eexists. split; [reflexivity |].
  split; [reflexivity |]. split; [reflexivity |]. split; [reflexivity |].
  split; [reflexivity |]. split; [reflexivity |].
  rewrite fetches_app. unfold fetches at 2; simpl. lia.
Qed.

(** X14. When the settings client succeeds, [InitializeUserSettings] returns
    nil and the controller holds exactly the settings that were fetched,
    whatever it held before. *)
Theorem InitializeUserSettings_success
        (s : Service Client) (usd : userSettingsData) (client' : Client) :
  Get (client s) = ((usd, None), client') ->
  exists s',
    InitializeUserSettings s = (None, s')
    /\ settingsData (controller s') = usd
    /\ client s' = client'
    /\ fetches s' = S (fetches s)
    /\ settingsResponses s' = settingsResponses s.
Proof.
  intros G. rewrite (InitializeUserSettings_fetched s usd client' G).
  eexists. split; [reflexivity |].
  split; [reflexivity |]. split; [reflexivity |].
  split.
  - rewrite fetches_app. unfold fetches at 2; simpl. lia.
  - rewrite settingsResponses_app. apply app_nil_r.
Qed.

(** X15. Every run of [UpdateUserSettingsHandler] asks the settings client
    once and writes exactly one response: 200 with the settings now in
    force, which are the fetched ones, or 500 without the error, in which
    case the settings in force are the ones from before. *)
Theorem UpdateUserSettingsHandler_one_response (s : Service Client) :
  let s' := UpdateUserSettingsHandler s in
  fetches s' = S (fetches s)
  /\ exists status body,
       settingsResponses s' = (settingsResponses s ++ [(status, body)])%list
       /\ ((status = StatusOK
            /\ body = settingsSuccess (settingsData (controller s'))
            /\ fst (fst (Get (client s))) = settingsData (controller s')
            /\ snd (fst (Get (client s))) = None)
           \/ (status = StatusInternalServerError
               /\ body = settingsError None
               /\ controller s' = controller s
               /\ snd (fst (Get (client s))) <> None)).
Proof.
  unfold UpdateUserSettingsHandler.
  destruct (Get (client s)) as [[usd [e |]] client'] eqn:G;
    [rewrite (InitializeUserSettings_failed s usd e client' G)
    | rewrite (InitializeUserSettings_fetched s usd client' G)];
    cbv zeta; unfold settingsRespond, settingsLogError;
    cbn [controller client journal fst snd].
  - split.
    + rewrite <- !app_assoc, fetches_app. unfold fetches at 2; simpl. lia.
    + exists StatusInternalServerError, (settingsError None).
      split; [rewrite <- !app_assoc, settingsResponses_app; reflexivity |].
      right. repeat split. discriminate.
  - split.
    + rewrite <- !app_assoc, fetches_app. unfold fetches at 2; simpl. lia.
    + exists StatusOK, (settingsSuccess usd).
      split; [rewrite <- !app_assoc, settingsResponses_app; reflexivity |].
      left. repeat split.
Qed.

(** X16. [main] panics exactly when the first fetch of the settings fails,
    with an error that wraps [errInternal]; otherwise it registers the
    routes, among them the two endpoints implemented here, on a controller
    that holds the fetched settings. *)
Theorem main_starts_with_settings (newClient : Client) :
  (forall usd e client',
      Get newClient = ((usd, Some e), client') ->
      exists err s, main newClient = Panicked err s
                    /\ Is err errInternal = true)
  /\ (forall usd client',
      Get newClient = ((usd, None), client') ->
      exists routes s,
        main newClient = Routed routes s
        /\ settingsData (controller s) = usd
        /\ In {| routeMethod := "POST"; routePath := "/v1/user";
                 routeHandler := "CreateUserHandler" |} routes
        /\ In {| routeMethod := "POST"; routePath := "/v1/update-settings";
                 routeHandler := "UpdateUserSettingsHandler" |} routes).
Proof.
  split.
  - intros usd e client' G.
    unfold main.
    rewrite (InitializeUserSettings_failed (MkService _ newClient []) usd e
               client' G).
    eexists; eexists. split; reflexivity.
  - intros usd client' G.
    unfold main.
    rewrite (InitializeUserSettings_fetched (MkService _ newClient []) usd
               client' G).
    eexists; eexists. split; [reflexivity |].
    split; [reflexivity |]. split; simpl; auto.
Qed.

End SettingsProperties.

Lemma InitializeUserSettings_failure_witness :
  let s := DemoSettings.service DemoSettings.on [] in
  exists err s',
    InitializeUserSettings DemoSettings.Client DemoSettings.Get s = (Some err, s')
    /\ Is err errInternal = true
    /\ controller s' = {| settingsData := DemoSettings.on |}.
Proof.
  intros s.
  destruct (InitializeUserSettings_failure DemoSettings.Client DemoSettings.Get
              s _ _ _ eq_refl) as (err & s' & E & I & _ & _ & C & _).
  exists err, s'. split; [exact E |]. split; [exact I | exact C].
Defined.

Lemma InitializeUserSettings_success_witness :
  let s := DemoSettings.service DemoSettings.on [DemoSettings.off] in
  exists s',
    InitializeUserSettings DemoSettings.Client DemoSettings.Get s = (None, s')
    /\ settingsData (controller s') = DemoSettings.off.
Proof.
  intros s.
  destruct (InitializeUserSettings_success DemoSettings.Client DemoSettings.Get
              s _ _ eq_refl) as (s' & E & C & _).
  exists s'. split; [exact E | exact C].
Defined.

Lemma main_starts_with_settings_witness :
  (exists err s,
      main DemoSettings.Client DemoSettings.Get [] = Panicked err s
      /\ Is err errInternal = true)
  /\ (exists routes s,
         main DemoSettings.Client DemoSettings.Get [DemoSettings.on]
         = Routed routes s
         /\ settingsData (controller s) = DemoSettings.on).
Proof.
  destruct (main_starts_with_settings DemoSettings.Client DemoSettings.Get [])
    as [P _].
  destruct (main_starts_with_settings DemoSettings.Client DemoSettings.Get
              [DemoSettings.on]) as [_ R].
  split.
  - apply (P _ _ _ eq_refl).
  - destruct (R _ _ eq_refl) as (routes & s & E & C & _).
    exists routes, s. split; [exact E | exact C].
Defined.

(** ** The settings and the create-user endpoint together *)

Section RefreshThenCreate.

Variable Client : Type.
Variable Get : Client -> (userSettingsData * option error) * Client.
Variable Body : Type.
Variable DB : Type.
Variable Decode : Body -> createUserRequest * option error.
Variable InsertUser :
  DB -> Context -> createUserRequest -> (string * option error) * DB.

Local Abbreviation UpdateUserSettingsHandler :=
  (UpdateUserSettingsHandler Client Get).
Local Abbreviation CreateUserHandler :=
  (CreateUserHandler Body DB Decode InsertUser).

Lemma UpdateUserSettingsHandler_controller (s : Service Client) :
  controller (UpdateUserSettingsHandler s)
  = match Get (client s) with
    | ((_, Some _), _) => controller s
    | ((usd, None), _) => {| settingsData := usd |}
    end.
Proof.
  unfold UpdateUserSettingsHandler.
  destruct (Get (client s)) as [[usd [e |]] client'] eqn:G;
    [rewrite (InitializeUserSettings_failed _ Get s usd e client' G)
    | rewrite (InitializeUserSettings_fetched _ Get s usd client' G)];
    reflexivity.
Qed.

(** X17. A settings refresh governs the next create-user request, since
    both handlers work on the same controller.  After a refresh that
    fetched [Enabled = false], [CreateUserHandler] answers 501 and neither
    reads the body nor calls the database; after one that fetched
    [Enabled = true] it goes on to decode the body; after a refresh that
    failed it does exactly what it would have done before the refresh. *)
Theorem refresh_governs_create_user
        (s : Service Client) (req : Request Body) (w : World Body DB) :
  let c' := controller (UpdateUserSettingsHandler s) in
  (forall usd client',
      Get (client s) = ((usd, None), client') ->
      Enabled usd = false ->
      CreateUserHandler c' req w
      = (tt, {| db := db w;
                trace := trace w ++ [Responded StatusNotImplemented
                                       (responseError None)] |}))
  /\ (forall usd client',
      Get (client s) = ((usd, None), client') ->
      Enabled usd = true ->
      exists rest,
        trace (snd (CreateUserHandler c' req w))
        = (trace w ++ Decoded (reqBody req) :: rest)%list)
  /\ (forall usd e client',
      Get (client s) = ((usd, Some e), client') ->
      CreateUserHandler c' req w = CreateUserHandler (controller s) req w).
Proof.
  intros c'. subst c'. rewrite UpdateUserSettingsHandler_controller.
  split; [| split].
  - intros usd client' G En. rewrite G.
    apply CreateUserHandler_disabled. exact En.
  - intros usd client' G En. rewrite G.
    pose proof (handleCreateUser_outcome _ _ Decode InsertUser
                  {| settingsData := usd |} (reqContext req) req w) as O.
    destruct (handleCreateUser Body DB Decode InsertUser
                {| settingsData := usd |} (reqContext req) req w)
      as [[resp err] w1] eqn:H.
    rewrite (CreateUserHandler_enabled _ _ Decode InsertUser
               {| settingsData := usd |} req w w1 resp err En H); simpl.
    inversion O; subst; unfold decoded, inserted; simpl;
      rewrite <- !app_assoc; simpl; eexists; reflexivity.
  - intros usd e client' G. rewrite G. reflexivity.
Qed.

End RefreshThenCreate.

Lemma refresh_governs_create_user_witness :
  let req := Demo.request (Some Demo.ann) in
  let run s :=
    snd (CreateUserHandler Demo.Body Demo.DB Demo.Decode Demo.InsertUser
           (controller (UpdateUserSettingsHandler DemoSettings.Client
                          DemoSettings.Get s))
           req (Demo.world [])) in
  (* the refresh turns the endpoint off *)
  run (DemoSettings.service DemoSettings.on [DemoSettings.off])
  = {| db := [];
       trace := [Responded StatusNotImplemented (responseError None)] |}
  (* the refresh turns the endpoint on *)
  /\ (exists rest,
         trace (run (DemoSettings.service DemoSettings.off [DemoSettings.on]))
         = Decoded (Some Demo.ann) :: rest)
  (* the refresh fails: still on *)
  /\ run (DemoSettings.service DemoSettings.on [])
     = snd (CreateUserHandler Demo.Body Demo.DB Demo.Decode Demo.InsertUser
              {| settingsData := DemoSettings.on |} req (Demo.world [])).
Proof.
  intros req run.
  destruct (refresh_governs_create_user DemoSettings.Client DemoSettings.Get
              Demo.Body Demo.DB Demo.Decode Demo.InsertUser
              (DemoSettings.service DemoSettings.on [DemoSettings.off])
              req (Demo.world [])) as (T1 & _ & _).
  destruct (refresh_governs_create_user DemoSettings.Client DemoSettings.Get
              Demo.Body Demo.DB Demo.Decode Demo.InsertUser
              (DemoSettings.service DemoSettings.off [DemoSettings.on])
              req (Demo.world [])) as (_ & T2 & _).
  destruct (refresh_governs_create_user DemoSettings.Client DemoSettings.Get
              Demo.Body Demo.DB Demo.Decode Demo.InsertUser
              (DemoSettings.service DemoSettings.on [])
              req (Demo.world [])) as (_ & _ & T3).
  specialize (T1 _ _ eq_refl eq_refl).
  specialize (T2 _ _ eq_refl eq_refl).
  specialize (T3 _ _ _ eq_refl).
  subst run; cbv beta.
  split; [rewrite T1; reflexivity |].
  split; [exact T2 |].
  rewrite T3; reflexivity.
Defined.

(** ** Chains that other code extends *)

Lemma GetMainContext_foreign_step (ctx : Context) (d : derivation) :
  foreignStep d = true ->
  GetMainContext (derive ctx [d]) = GetMainContext ctx.
Proof.
  destruct d as [key val |]; simpl; intros F; [| reflexivity].
  unfold GetMainContext; simpl.
  apply negb_true_iff in F. rewrite F. reflexivity.
Qed.

(** X18. The scope survives what other packages do to the chain: after any
    sequence of bindings under other keys and of cancellable derivations,
    the accessors read the same scope and request ID as before. *)
Theorem scope_survives_derivations (ctx : Context) (steps : list derivation) :
  forallb foreignStep steps = true ->
  GetMainContext (derive ctx steps) = GetMainContext ctx
  /\ GetRequestID (derive ctx steps) = GetRequestID ctx.
Proof.
  intros F.
  assert (E : GetMainContext (derive ctx steps) = GetMainContext ctx).
  { revert ctx. induction steps as [| d rest IH]; intros ctx.
    - reflexivity.
    - simpl in F. apply andb_true_iff in F as [Fd Frest].
      specialize (IH Frest).
      pose proof (GetMainContext_foreign_step ctx d Fd) as S.
      destruct d as [key val |]; simpl in *; rewrite IH; exact S. }
  split; [exact E |]. unfold GetRequestID. rewrite E. reflexivity.
Qed.

Lemma scope_survives_derivations_witness :
  let s := {| RequestID := "abc"; IPAddress := "1.2.3.4" |} in
  let steps := [bindValue (stringVal "user") (stringVal "u1"); deriveCancel;
                bindValue (foreign "http.contextKey" "http-server") nilAny] in
  forallb foreignStep steps = true
  /\ GetMainContext (derive (SetMainContext emptyCtx s) steps) = s.
Proof.
  intros s steps.
  assert (F : forallb foreignStep steps = true) by reflexivity.
  destruct (scope_survives_derivations (SetMainContext emptyCtx s) steps F)
    as [E _].
  split; [exact F |]. rewrite E. reflexivity.
Defined.

(** ** What the client is told *)

Section HandlerReports.

Variable Body : Type.
Variable DB : Type.
Variable Decode : Body -> createUserRequest * option error.
Variable InsertUser :
  DB -> Context -> createUserRequest -> (string * option error) * DB.

Local Abbreviation handleCreateUser :=
  (handleCreateUser Body DB Decode InsertUser).
Local Abbreviation CreateUserHandler :=
  (CreateUserHandler Body DB Decode InsertUser).
Local Abbreviation World := (World Body DB).

Lemma validate_rejected (cur : createUserRequest) :
  ~ wellFormed cur ->
  validateCreateUserRequest cur
  = Some (errorString (Join (applicableMessages cur) "; ")).
Proof.
  intros N. rewrite validateCreateUserRequest_messages.
  destruct (applicableMessages cur) eqn:A; [| reflexivity].
  exfalso. apply N, applicableMessages_nil_iff, A.
Qed.

(** X19. A request that decodes but is refused by the validation is
    answered 400 with an error whose message names every refused field, in
    field-check order, between the handler's prefix and the sentinel's
    message; the database is not called. *)
Theorem CreateUserHandler_reports_fields
        (c : Controller) (req : Request Body) (w : World)
        (cur : createUserRequest) :
  Enabled (settingsData c) = true ->
  Decode (reqBody req) = (cur, None) ->
  ~ wellFormed cur ->
  exists err,
    responses (snd (CreateUserHandler c req w))
    = (responses w ++ [(StatusBadRequest, responseError (Some err))])%list
    /\ Error err = "failed to validate create user request. "
                   ++ Join (applicableMessages cur) "; " ++ ". input error"
    /\ inserts (snd (CreateUserHandler c req w)) = inserts w
    /\ db (snd (CreateUserHandler c req w)) = db w.
Proof.
  intros En D N.
  pose proof (validate_rejected cur N) as V.
  pose proof (handleCreateUser_outcome _ _ Decode InsertUser
                c (reqContext req) req w) as O.
  destruct (handleCreateUser c (reqContext req) req w) as [[resp err] w1] eqn:H.
  rewrite (CreateUserHandler_enabled _ _ Decode InsertUser
             c req w w1 resp err En H); cbn [snd].
  pose proof (handleCreateUser_responses _ _ Decode InsertUser
                c (reqContext req) req w) as R.
  rewrite H in R; cbn [snd] in R.
  inversion O; subst; agree.
  eexists.
  split; [rewrite responses_app, R; reflexivity |].
  split; [reflexivity |].
  split; [| reflexivity].
  rewrite inserts_app, inserts_answer, app_nil_r.
  apply inserts_decoded.
Qed.

(** X20. When the insert fails, the client is answered 500 without any
    error, while the log entry holds the error with the database's message;
    the database is left as the failed insert left it. *)
Theorem CreateUserHandler_hides_internal_error
        (c : Controller) (req : Request Body) (w : World)
        (cur : createUserRequest) (userID : string) (e : error) (db' : DB) :
  Enabled (settingsData c) = true ->
  Decode (reqBody req) = (cur, None) ->
  validateCreateUserRequest cur = None ->
  InsertUser (db w) (reqContext req) cur = ((userID, Some e), db') ->
  exists err,
    CreateUserHandler c req w
    = (tt, {| db := db';
              trace := trace w
                       ++ [Decoded (reqBody req);
                           Inserted (reqContext req) cur;
                           Logged "failed to create user" err;
                           Responded StatusInternalServerError
                             (responseError None)] |})
    /\ Error err = "failed to insert user. " ++ Error e ++ ". internal error"
    /\ Is err errInternal = true.
Proof.
  intros En D V I.
  pose proof (handleCreateUser_outcome _ _ Decode InsertUser
                c (reqContext req) req w) as O.
  destruct (handleCreateUser c (reqContext req) req w) as [[resp err] w1] eqn:H.
  rewrite (CreateUserHandler_enabled _ _ Decode InsertUser
             c req w w1 resp err En H).
  inversion O; subst; agree.
  eexists. split.
  - unfold inserted, answer; simpl. rewrite <- !app_assoc. reflexivity.
  - split; reflexivity.
Qed.

End HandlerReports.

Lemma CreateUserHandler_reports_fields_witness :
  let req := Demo.request (Some Demo.anonymous) in
  Enabled (settingsData Demo.enabled) = true
  /\ ~ wellFormed Demo.anonymous
  /\ exists err,
       responses (snd (CreateUserHandler Demo.Body Demo.DB Demo.Decode
                         Demo.InsertUser Demo.enabled req (Demo.world [])))
       = [(StatusBadRequest, responseError (Some err))]
       /\ Error err = "failed to validate create user request. full name is required; state is required and must be 2 characters. input error".
Proof.
  intros req.
  assert (N : ~ wellFormed Demo.anonymous)
    by (intros (F & _); apply F; reflexivity).
  destruct (CreateUserHandler_reports_fields Demo.Body Demo.DB Demo.Decode
              Demo.InsertUser Demo.enabled req (Demo.world [])
              Demo.anonymous eq_refl eq_refl N) as (err & R & E & _).
  split; [reflexivity |]. split; [exact N |].
  exists err. split; [exact R | exact E].
Defined.

Lemma CreateUserHandler_hides_internal_error_witness :
  let req := Demo.request (Some Demo.ann) in
  let full := [Demo.ann; Demo.ann] in
  Demo.InsertUser full (reqContext req) Demo.ann
  = (("", Some (errorString "database is full")), full)
  /\ responses (snd (CreateUserHandler Demo.Body Demo.DB Demo.Decode
                       Demo.InsertUser Demo.enabled req (Demo.world full)))
     = [(StatusInternalServerError, responseError None)].
Proof.
  intros req full.
  destruct (CreateUserHandler_hides_internal_error Demo.Body Demo.DB
              Demo.Decode Demo.InsertUser Demo.enabled req (Demo.world full)
              Demo.ann "" (errorString "database is full") full
              eq_refl eq_refl eq_refl eq_refl) as (err & T & _).
  split; [reflexivity |]. rewrite T. reflexivity.
Defined.

